(** * NFL-Counterfactual front end: builder and health pages

    A shallow embedding of the page controllers of the front end
    (the builder page with its three request handlers, the earlier
    parse-only builder page, and the health page), followed by the
    properties of the request orchestration and of the rendering that
    the design document states.

    Conventions of the embedding:
    - a JavaScript number is an IEEE 754 binary64 value, i.e. a primitive
      [float] of Rocq, with the same rounding on arithmetic;
    - a JavaScript string is a [string]; what the engine computes on
      strings and numbers ([toUpperCase], number conversions, the
      messages of its errors) is a parameter of the pages;
    - a value of type [any] (what [res.json()] resolves to) is a [jsval];
    - React state is a record, every [setX] call an [Action] applied in
      program order; a handler reads the state it closed over;
    - an [async] handler is a finite tree of setter calls and awaited
      requests ([proc]); running it against an answer of the network
      gives the final state and the requests issued, each with the state
      that was current while it was outstanding. *)

From Stdlib Require Import ZArith NArith Bool List String Ascii Lia.
From Stdlib Require Import PrimFloat FloatOps SpecFloat DecimalString.
Import ListNotations.

Set Implicit Arguments.
Set Warnings "-register-all,-inexact-float".
Local Open Scope list_scope.
Local Open Scope string_scope.

(* ================================================================= *)
(** ** JavaScript values *)

Module JS.

(** Values that [res.json()] can resolve to, plus [undefined], which
    object literals of the handlers may hold.  An object is the list of
    its own properties in enumeration order (property names are
    distinct; a lookup takes the first). *)
Inductive jsval : Type :=
| JUndefined
| JNull
| JBool (b : bool)
| JNum (x : float)
| JStr (s : string)
| JArr (items : list jsval)
| JObj (props : list (string * jsval)).

(** ToBoolean. *)
Definition truthy (v : jsval) : bool :=
  match v with
  | JUndefined | JNull => false
  | JBool b => b
  | JNum x => negb (is_zero x || is_nan x)
  | JStr s => negb (s =? "")
  | JArr _ | JObj _ => true
  end.

Fixpoint lookup {A : Type} (k : string) (ps : list (string * A)) : option A :=
  match ps with
  | [] => None
  | (k', v) :: ps' => if k =? k' then Some v else lookup k ps'
  end.

(** [v.k] for a value [v] that is neither [null] nor [undefined] and a
    name [k] that no built-in prototype defines and that is no array
    index ([spec], [warnings]): an own property of an object, and
    [undefined] on everything else. *)
Definition get_field (v : jsval) (k : string) : jsval :=
  match v with
  | JObj ps => match lookup k ps with Some x => x | None => JUndefined end
  | _ => JUndefined
  end.

(** [v?.k], same names. *)
Definition opt_get (v : jsval) (k : string) : jsval :=
  match v with
  | JUndefined | JNull => JUndefined
  | _ => get_field v k
  end.

(** ToBoolean of [w?.length]: the length of a string or of an array is
    a non-negative integer, truthy when it is not zero; an object gives
    its own [length] property; anything else has none. *)
Definition length_truthy (w : jsval) : bool :=
  match w with
  | JStr s => negb (s =? "")
  | JArr l => match l with [] => false | _ :: _ => true end
  | JObj _ => truthy (get_field w "length")
  | _ => false
  end.

(** [a ?? b] on a value that is a string when it is defined. *)
Definition nullish (a : option string) (b : string) : string :=
  match a with Some x => x | None => b end.

(** [a || b] on strings: the empty string is falsy. *)
Definition or_else (a b : string) : string :=
  if a =? "" then b else a.

(** A template literal's conversion of a value that is a string when
    it is defined. *)
Definition template (a : option string) : string :=
  match a with Some x => x | None => "undefined" end.

(** Number::toString on a non-negative integer: its decimal digits. *)
Definition digits (n : N) : string :=
  NilEmpty.string_of_uint (N.to_uint n).

(** What the engine defines and the pages only call. *)
Record Platform : Type := {
  (** String.prototype.toUpperCase. *)
  toUpperCase : string -> string;
  (** Number::toString on any number. *)
  Number_toString : float -> string;
  (** StringToNumber, the [Number(v)] of a string. *)
  StringToNumber : string -> float;
  (** The message of the TypeError for reading a property of [null]
      or [undefined]. *)
  msg_property_of_nullish : jsval -> string -> string;
  (** The message of the TypeError for calling what is no function. *)
  msg_not_a_function : string -> string;
  (** The message of the TypeError for an object that has no primitive
      value. *)
  msg_no_primitive : string
}.

(** ToString of an array element inside [join]: [null] and [undefined]
    give the empty string, a nested array is joined with commas, a
    plain object prints as [[object Object]] unless an own [toString]
    property (never callable here) hides the inherited method. *)
Fixpoint join_item (P : Platform) (v : jsval) : string + string :=
  match v with
  | JUndefined | JNull => inr ""
  | JBool b => inr (if b then "true" else "false")
  | JNum x => inr (Number_toString P x)
  | JStr s => inr s
  | JArr l =>
      (fix go (l : list jsval) (first : bool) : string + string :=
         match l with
         | [] => inr ""
         | x :: r =>
             match join_item P x with
             | inl e => inl e
             | inr sx =>
                 match go r false with
                 | inl e => inl e
                 | inr sr => inr ((if first then "" else ",") ++ sx ++ sr)
                 end
             end
         end) l true
  | JObj ps =>
      match lookup "toString" ps with
      | Some _ => inl (msg_no_primitive P)
      | None => inr "[object Object]"
      end
  end.

(** Array.prototype.join on the elements of an array. *)
Fixpoint Array_join (P : Platform) (l : list jsval) (sep : string)
  : string + string :=
  match l with
  | [] => inr ""
  | [x] => join_item P x
  | x :: r =>
      match join_item P x with
      | inl e => inl e
      | inr sx =>
          match Array_join P r sep with
          | inl e => inl e
          | inr sr => inr (sx ++ sep ++ sr)
          end
      end
  end.

End JS.
Import JS.

(* ================================================================= *)
(** ** JSON.stringify *)

Module JSON.

(** The text [JSON.stringify] produces, as the tree of its tokens.  A
    [TNum x] leaf stands for the numeral Number::toString gives [x], a
    [TStr s] leaf (and a member name) for the quoted and escaped form of
    [s]; members and elements are in the order they are written. *)
Inductive text : Type :=
| TNull
| TBool (b : bool)
| TNum (x : float)
| TStr (s : string)
| TArr (items : list text)
| TObj (members : list (string * text)).

(** SerializeJSONProperty without replacer: [None] is the [undefined]
    that makes an object drop the property.  A number that is not
    finite is written [null], and so is [undefined] inside an array.
    No value of [jsval] is callable, so no [toJSON] is ever called. *)
Fixpoint serialize (v : jsval) : option text :=
  match v with
  | JUndefined => None
  | JNull => Some TNull
  | JBool b => Some (TBool b)
  | JNum x => Some (if is_finite x then TNum x else TNull)
  | JStr s => Some (TStr s)
  | JArr l =>
      Some (TArr (List.map (fun x => match serialize x with
                                     | Some t => t
                                     | None => TNull
                                     end) l))
  | JObj ps =>
      Some (TObj
              ((fix members (ps : list (string * jsval)) : list (string * text) :=
                  match ps with
                  | [] => []
                  | (k, x) :: r =>
                      match serialize x with
                      | Some t => (k, t) :: members r
                      | None => members r
                      end
                  end) ps))
  end.

(** [JSON.stringify(v)]. *)
Definition stringify (v : jsval) : option text := serialize v.

(** The member [k] of a serialized object. *)
Definition member (k : string) (t : option text) : option text :=
  match t with
  | Some (TObj ms) => lookup k ms
  | _ => None
  end.

(** The names of the members of a serialized object, in order. *)
Definition member_names (t : option text) : list string :=
  match t with
  | Some (TObj ms) => List.map fst ms
  | _ => []
  end.

End JSON.

(* ================================================================= *)
(** ** Number.prototype.toFixed *)

Module Fixed.

(** The integer [n] for which [n / 10^f - x] is as close to zero as
    possible, the larger one when there are two, for the exact value
    [x = m * 2^e] of a positive finite number. *)
Definition nearest_scaled (m : positive) (e : Z) (f : nat) : Z :=
  let a := (Z.pos m * 10 ^ Z.of_nat f)%Z in
  if (0 <=? e)%Z then (a * 2 ^ e)%Z
  else ((2 * a + 2 ^ (- e)) / (2 * 2 ^ (- e)))%Z.

(** The exact value [m * 2^e] as a fraction of integers: its numerator. *)
Definition exact_num (m : positive) (e : Z) : Z := (Z.pos m * 2 ^ Z.max 0 e)%Z.

(** Its denominator. *)
Definition exact_den (e : Z) : Z := (2 ^ Z.max 0 (- e))%Z.

Fixpoint zeros (k : nat) : string :=
  match k with
  | O => ""
  | S k' => String "0" (zeros k')
  end.

(** The digits of [n] with a point before the last [f] of them, padded
    with zeros on the left up to [f + 1] digits. *)
Definition point (n : Z) (f : nat) : string :=
  let m := digits (Z.to_N n) in
  match f with
  | O => m
  | S _ =>
      let k := String.length m in
      let m' := if (k <=? f)%nat then zeros (f + 1 - k) ++ m else m in
      let k' := String.length m' in
      substring 0 (k' - f) m' ++ "." ++ substring (k' - f) f m'
  end.

(** [x.toFixed(f)] for [0 <= f <= 100]. *)
Definition toFixed (P : Platform) (x : float) (f : nat) : string :=
  match Prim2SF x with
  | S754_nan => "NaN"
  | S754_infinity false => "Infinity"
  | S754_infinity true => "-Infinity"
  | S754_zero _ => point 0 f
  | S754_finite s m e =>
      (if s then "-" else "") ++
      (if (1e21 <=? abs x)%float then Number_toString P (abs x)
       else point (nearest_scaled m e f) f)
  end.

(** [c] is one of the characters 0 to 9. *)
Definition is_digit (c : ascii) : bool :=
  let k := nat_of_ascii c in ((48 <=? k) && (k <=? 57))%nat.

(** Every character of [t] is a digit. *)
Fixpoint all_digits (t : string) : bool :=
  match t with
  | EmptyString => true
  | String c t' => is_digit c && all_digits t'
  end.

(** [x] is a finite number: a zero or a finite non-zero value. *)
Definition is_number (x : float) : bool :=
  match Prim2SF x with
  | S754_zero _ | S754_finite _ _ _ => true
  | _ => false
  end.

End Fixed.

(* ================================================================= *)
(** ** The types of the builder page *)

Record SimSummary : Type := mkSimSummary {
  yards_mean : float;
  yards_p10 : float;
  yards_p50 : float;
  yards_p90 : float;
  td_rate : float;
  fg_rate : float;
  turnover_rate : float;
  assumptions : list string;
  sim_seed : float
}.

Inductive PlayResult : Type :=
| GAIN
| FIRST_DOWN
| TOUCHDOWN
| TURNOVER_ON_DOWNS
| FIELD_GOAL_GOOD
| FIELD_GOAL_MISS
| PUNT.

Record DrivePlay : Type := mkDrivePlay {
  down : float;
  distance : float;
  yardline_100 : float;
  call_type : string;
  yards : float;
  play_result : PlayResult
}.

Inductive DriveEnd : Type :=
| TD
| FG_GOOD
| FG_MISS
| END_PUNT
| DOWNS
| EXHAUSTED.

Record DriveSummary : Type := mkDriveSummary {
  plays : list DrivePlay;
  points_for_offense : float;
  time_elapsed_seconds : float;
  ended : DriveEnd
}.

(* ================================================================= *)
(** ** fetch *)

Module Http.

Inductive Method : Type := GET | POST.

(** The arguments of one [fetch] call. *)
Record Request : Type := mkRequest {
  url : string;
  method : Method;
  headers : list (string * string);
  body : option JSON.text;
  cache : option string
}.

(** A response whose body, read by [res.json()], is a [B], or is no
    JSON at all ([inl], the message of the SyntaxError). *)
Record Response (B : Type) : Type := mkResponse {
  status : N;
  json_body : string + B
}.

(** [res.ok]: the status is in the range 200 to 299. *)
Definition ok {B : Type} (res : Response B) : bool :=
  ((200 <=? status res) && (status res <=? 299))%N.

(** What awaiting [fetch] gives: the promise rejects (a network
    error, with the message of the error) or resolves to a response. *)
Inductive FetchResult (B : Type) : Type :=
| Rejected (message : string)
| Resolved (res : Response B).

Arguments Rejected {B} message.

(** A request that fails: the promise of [fetch] rejects, or the
    response has a status outside 200..299. *)
Definition failed {B : Type} (o : FetchResult B) : bool :=
  match o with
  | Rejected _ => true
  | Resolved res => negb (ok res)
  end.

(** The message the [catch] block receives from a failed request. *)
Definition failure_message {B : Type} (o : FetchResult B) : string :=
  match o with
  | Rejected m => m
  | Resolved res => "HTTP " ++ digits (status res)
  end.

(** The payload a handler gets to read: the response has a status in
    200..299 and a body that is JSON. *)
Definition payload {B : Type} (o : FetchResult B) : option B :=
  match o with
  | Rejected _ => None
  | Resolved res =>
      if ok res
      then match json_body res with inr d => Some d | inl _ => None end
      else None
  end.

(** The message of the error that awaiting the request, checking
    [res.ok] or reading the body throws, if one of them throws. *)
Definition thrown {B : Type} (o : FetchResult B) : option string :=
  match o with
  | Rejected m => Some m
  | Resolved res =>
      if ok res
      then match json_body res with inl m => Some m | inr _ => None end
      else Some ("HTTP " ++ digits (status res))
  end.

End Http.
Import Http.

(* ================================================================= *)
(** ** Asynchronous handlers *)

Module Async.

Section Proc.
(** [Act]: the setter calls of a page; [B]: the type of the bodies
    of the responses the handler reads. *)
Context {Act B : Type}.

Inductive proc (A : Type) : Type :=
| Ret (a : A)
| Throw (message : string)
| Call (a : Act) (k : proc A)
| Await (r : Request) (k : FetchResult B -> proc A).

Arguments Throw {A} message.

Fixpoint bind {A C : Type} (p : proc A) (f : A -> proc C) : proc C :=
  match p with
  | Ret a => f a
  | Throw m => Throw m
  | Call a k => Call a (bind k f)
  | Await r k => Await r (fun o => bind (k o) f)
  end.

(** [try { p } catch (err) { h err.message }]. *)
Fixpoint try_catch {A : Type} (p : proc A) (h : string -> proc A) : proc A :=
  match p with
  | Ret a => Ret a
  | Throw m => h m
  | Call a k => Call a (try_catch k h)
  | Await r k => Await r (fun o => try_catch (k o) h)
  end.

(** [try { p } finally { fin }]. *)
Fixpoint try_finally {A : Type} (p : proc A) (fin : proc unit) : proc A :=
  match p with
  | Ret a => bind fin (fun _ => Ret a)
  | Throw m => bind fin (fun _ => Throw m)
  | Call a k => Call a (try_finally k fin)
  | Await r k => Await r (fun o => try_finally (k o) fin)
  end.

Definition call (a : Act) : proc unit := Call a (Ret tt).

Definition throw {A : Type} (m : string) : proc A := Throw m.

(** [await fetch(...)]: a rejection is thrown. *)
Definition fetch (r : Request) : proc (Response B) :=
  Await r (fun o => match o with
                    | Rejected m => Throw m
                    | Resolved res => Ret res
                    end).

(** [await res.json()]. *)
Definition json (res : Response B) : proc B :=
  match json_body res with
  | inl m => Throw m
  | inr d => Ret d
  end.

(** One run of a handler: the state at the end, the requests issued
    in order, each with the state that was current when it was issued
    and stays current until it is answered, and how the handler
    ended ([inl]: an error left it). *)
Record Run (St A : Type) : Type := mkRun {
  final : St;
  requests : list (Request * St);
  completion : string + A
}.

Fixpoint exec {St A : Type} (apply : Act -> St -> St)
  (net : Request -> FetchResult B) (p : proc A) (s : St) : Run St A :=
  match p with
  | Ret a => mkRun s [] (inr a)
  | Throw m => mkRun s [] (inl m)
  | Call a k => exec apply net k (apply a s)
  | Await r k =>
      let run := exec apply net (k (net r)) s in
      mkRun (final run) ((r, s) :: requests run) (completion run)
  end.

(** Every setter call of [p], on every answer of the network,
    satisfies [Q]. *)
Fixpoint calls_all {A : Type} (Q : Act -> Prop) (p : proc A) : Prop :=
  match p with
  | Ret _ | Throw _ => True
  | Call a k => Q a /\ calls_all Q k
  | Await _ k => forall o, calls_all Q (k o)
  end.

(** [p] awaits no request. *)
Fixpoint quiet {A : Type} (p : proc A) : Prop :=
  match p with
  | Ret _ | Throw _ => True
  | Call _ k => quiet k
  | Await _ _ => False
  end.

End Proc.

Arguments proc : clear implicits.
Arguments Throw {Act B A} message.

Declare Scope proc_scope.
Delimit Scope proc_scope with proc.
Notation "x <- p ;; q" := (bind p (fun x => q))
  (at level 61, p at next level, right associativity) : proc_scope.
Notation "p ;; q" := (bind p (fun _ => q))
  (at level 61, right associativity) : proc_scope.

End Async.
Import Async.

(* ================================================================= *)
(** ** Conditional rendering *)

Module React.

(** What [{v && <jsx/>}] puts on the page: the element, the text of a
    falsy number (React renders numbers), or nothing at all. *)
Inductive Slot (A : Type) : Type :=
| Shown (a : A)
| Text (t : string)
| Nothing.

Arguments Text {A} t.
Arguments Nothing {A}.

Definition when_truthy {A : Type} (v : jsval) (a : A) : Slot A :=
  if truthy v then Shown a
  else match v with
       | JNum x => Text (if is_nan x then "NaN" else "0")
       | _ => Nothing
       end.

(** [{w && <div>{w}</div>}] for a string or [null]: the empty string
    renders nothing. *)
Definition when_text (w : option string) : option string :=
  match w with
  | Some t => if t =? "" then None else Some t
  | None => None
  end.

Record Button : Type := mkButton {
  disabled : bool;
  label : string
}.

End React.
Import React.

(* ================================================================= *)
(** ** The builder page *)

Module Builder.

(** The seed field: a number, or the empty string of a cleared input. *)
Inductive Seed : Type :=
| SeedEmpty
| SeedNumber (v : float).

Record State : Type := mkState {
  text : string;
  offense : string;
  defense : string;
  result : jsval;
  warning : option string;
  loading : bool;
  n : float;
  seed : Seed;
  sim : option SimSummary;
  drive : option DriveSummary
}.

(** The state of the first render; [seed0] is the value of
    [Math.floor(Math.random() * 1e9)]. *)
Definition init (seed0 : float) : State :=
  mkState "3rd & 8 on DAL 42, 2:05 Q4, down 3, deep middle pass, 11 personnel"
          "DAL" "PHI" JNull None false 1000%float (SeedNumber seed0) None None.

Inductive Action : Type :=
| setText (v : string)
| setOffense (v : string)
| setDefense (v : string)
| setResult (v : jsval)
| setWarning (v : option string)
| setLoading (v : bool)
| setN (v : float)
| setSeed (v : Seed)
| setSim (v : option SimSummary)
| setDrive (v : option DriveSummary).

Definition apply (a : Action) (s : State) : State :=
  match a with
  | setText v =>
      mkState v (offense s) (defense s) (result s) (warning s) (loading s)
              (n s) (seed s) (sim s) (drive s)
  | setOffense v =>
      mkState (text s) v (defense s) (result s) (warning s) (loading s)
              (n s) (seed s) (sim s) (drive s)
  | setDefense v =>
      mkState (text s) (offense s) v (result s) (warning s) (loading s)
              (n s) (seed s) (sim s) (drive s)
  | setResult v =>
      mkState (text s) (offense s) (defense s) v (warning s) (loading s)
              (n s) (seed s) (sim s) (drive s)
  | setWarning v =>
      mkState (text s) (offense s) (defense s) (result s) v (loading s)
              (n s) (seed s) (sim s) (drive s)
  | setLoading v =>
      mkState (text s) (offense s) (defense s) (result s) (warning s) v
              (n s) (seed s) (sim s) (drive s)
  | setN v =>
      mkState (text s) (offense s) (defense s) (result s) (warning s) (loading s)
              v (seed s) (sim s) (drive s)
  | setSeed v =>
      mkState (text s) (offense s) (defense s) (result s) (warning s) (loading s)
              (n s) v (sim s) (drive s)
  | setSim v =>
      mkState (text s) (offense s) (defense s) (result s) (warning s) (loading s)
              (n s) (seed s) v (drive s)
  | setDrive v =>
      mkState (text s) (offense s) (defense s) (result s) (warning s) (loading s)
              (n s) (seed s) (sim s) v
  end.

(** The setter calls that leave the team codes alone. *)
Definition keeps_codes (a : Action) : Prop :=
  match a with
  | setOffense _ | setDefense _ => False
  | _ => True
  end.

(** The state while the request of [onParse] is outstanding. *)
Definition parse_pending (s : State) : State :=
  mkState (text s) (offense s) (defense s) JNull None true (n s) (seed s) None None.

(** The state while the request of [onSimulatePlay] is outstanding. *)
Definition play_pending (s : State) : State :=
  mkState (text s) (offense s) (defense s) (result s) None true (n s) (seed s)
          None (drive s).

(** The state while the request of [onSimulateDrive] is outstanding. *)
Definition drive_pending (s : State) : State :=
  mkState (text s) (offense s) (defense s) (result s) None true (n s) (seed s)
          (sim s) None.

Section Page.
Variable P : Platform.
(** [process.env.NEXT_PUBLIC_API_BASE]; [None] when it is not set. *)
Variable NEXT_PUBLIC_API_BASE : option string.

Local Open Scope proc_scope.

Definition API : string :=
  nullish NEXT_PUBLIC_API_BASE "http://localhost:8000".

Definition json_headers : list (string * string) :=
  [("Content-Type", "application/json")].

(** [if (!res.ok) throw new Error(`HTTP ${res.status}`)]. *)
Definition check_ok {B : Type} (res : Response B) : proc Action B unit :=
  if negb (ok res) then throw ("HTTP " ++ digits (status res)) else Ret tt.

(** [v.k], which throws on [null] and [undefined]. *)
Definition get {B : Type} (v : jsval) (k : string) : proc Action B jsval :=
  match v with
  | JUndefined | JNull => throw (msg_property_of_nullish P v k)
  | _ => Ret (get_field v k)
  end.

(** [w.join(sep)]: only an array has the method. *)
Definition call_join {B : Type} (w : jsval) (sep : string)
  : proc Action B string :=
  match w with
  | JArr l =>
      match Array_join P l sep with
      | inl e => throw e
      | inr j => Ret j
      end
  | _ => throw (msg_not_a_function P "join")
  end.

Definition parse_request (s : State) : Request :=
  mkRequest (API ++ "/parse-freeform") POST json_headers
    (JSON.stringify (JObj [("text", JStr (text s));
                           ("offense", JStr (offense s));
                           ("defense", JStr (defense s))]))
    (Some "no-store").

(** [onParse], after [e.preventDefault()]. *)
Definition onParse (s : State) : proc Action jsval unit :=
  call (setLoading true) ;;
  call (setWarning None) ;;
  call (setResult JNull) ;;
  call (setSim None) ;;
  call (setDrive None) ;;
  try_finally
    (try_catch
       (res <- fetch (parse_request s) ;;
        check_ok res ;;
        data <- json res ;;
        call (setResult data) ;;
        w <- get data "warnings" ;;
        if length_truthy w
        then (j <- call_join w " | " ;; call (setWarning (Some j)))
        else Ret tt)
       (fun message => call (setWarning (Some (or_else message "Request failed")))))
    (call (setLoading false)).

(** The [seed] property of the request objects:
    [seed === "" ? undefined : Number(seed)]. *)
Definition seed_property (s : State) : jsval :=
  match seed s with
  | SeedEmpty => JUndefined
  | SeedNumber v => JNum v
  end.

Definition simulate_payload (s : State) : jsval :=
  JObj [("spec", get_field (result s) "spec");
        ("n", JNum (n s));
        ("seed", seed_property s)].

Definition simulate_request (s : State) : Request :=
  mkRequest (API ++ "/simulate") POST json_headers
    (JSON.stringify (simulate_payload s)) None.

Definition onSimulatePlay (s : State) : proc Action SimSummary unit :=
  if negb (truthy (opt_get (result s) "spec")) then Ret tt else
  call (setLoading true) ;;
  call (setWarning None) ;;
  call (setSim None) ;;
  try_finally
    (try_catch
       (res <- fetch (simulate_request s) ;;
        check_ok res ;;
        data <- json res ;;
        call (setSim (Some data)))
       (fun message => call (setWarning (Some (or_else message "Sim request failed")))))
    (call (setLoading false)).

Definition drive_payload (s : State) : jsval :=
  JObj [("spec", get_field (result s) "spec");
        ("n", JNum 1%float);
        ("seed", seed_property s)].

Definition drive_request (s : State) : Request :=
  mkRequest (API ++ "/simulate-drive") POST json_headers
    (JSON.stringify (drive_payload s)) None.

Definition onSimulateDrive (s : State) : proc Action DriveSummary unit :=
  if negb (truthy (opt_get (result s) "spec")) then Ret tt else
  call (setLoading true) ;;
  call (setWarning None) ;;
  call (setDrive None) ;;
  try_finally
    (try_catch
       (res <- fetch (drive_request s) ;;
        check_ok res ;;
        data <- json res ;;
        call (setDrive (Some data)))
       (fun message => call (setWarning (Some (or_else message "Drive sim failed")))))
    (call (setLoading false)).

(** The [onChange] handlers of the inputs, on [e.target.value]. *)
Definition onChangeText (v : string) : Action := setText v.
Definition onChangeOffense (v : string) : Action := setOffense (toUpperCase P v).
Definition onChangeDefense (v : string) : Action := setDefense (toUpperCase P v).
Definition onChangeN (v : string) : Action := setN (StringToNumber P v).
Definition onChangeSeed (v : string) : Action :=
  setSeed (if v =? "" then SeedEmpty else SeedNumber (StringToNumber P v)).

(** What the user does, with the answer the network gives to the
    request of a handler. *)
Inductive Event : Type :=
| ChangeText (v : string)
| ChangeOffense (v : string)
| ChangeDefense (v : string)
| ChangeN (v : string)
| ChangeSeed (v : string)
| SubmitParse (o : FetchResult jsval)
| ClickSimulatePlay (o : FetchResult SimSummary)
| ClickSimulateDrive (o : FetchResult DriveSummary).

(** The handler of an event run to its end. *)
Definition step (s : State) (ev : Event) : State :=
  match ev with
  | ChangeText v => apply (onChangeText v) s
  | ChangeOffense v => apply (onChangeOffense v) s
  | ChangeDefense v => apply (onChangeDefense v) s
  | ChangeN v => apply (onChangeN v) s
  | ChangeSeed v => apply (onChangeSeed v) s
  | SubmitParse o => final (exec apply (fun _ => o) (onParse s) s)
  | ClickSimulatePlay o => final (exec apply (fun _ => o) (onSimulatePlay s) s)
  | ClickSimulateDrive o => final (exec apply (fun _ => o) (onSimulateDrive s) s)
  end.

Definition steps (s : State) (evs : list Event) : State :=
  fold_left step evs s.

(** The value last entered in the offense input, if any, after [seen]. *)
Definition entered_offense (evs : list Event) (seen : option string) : option string :=
  fold_left (fun last ev => match ev with ChangeOffense v => Some v | _ => last end)
            evs seen.

(** The value last entered in the defense input, if any, after [seen]. *)
Definition entered_defense (evs : list Event) (seen : option string) : option string :=
  fold_left (fun last ev => match ev with ChangeDefense v => Some v | _ => last end)
            evs seen.

(** The code an input leads to: the upper-case form of what was entered
    last, or the default of the first render. *)
Definition code_of (default : string) (entered : option string) : string :=
  match entered with
  | Some v => toUpperCase P v
  | None => default
  end.

(** A rate as the summary shows it: [{(rate * 100).toFixed(1)}%]. *)
Definition percent (rate : float) : string :=
  Fixed.toFixed P (rate * 100)%float 1 ++ "%".

(** The cards of the simulation summary, title and text, shown when
    a summary is stored ([sim && ...]). *)
Definition sim_cards (s : State) : option (list (string * string)) :=
  match sim s with
  | None => None
  | Some d =>
      Some [("Mean Yards", Fixed.toFixed P (yards_mean d) 2);
            ("P10 / P50 / P90",
             Fixed.toFixed P (yards_p10 d) 1 ++ " / " ++
             Fixed.toFixed P (yards_p50 d) 1 ++ " /" ++ " " ++
             Fixed.toFixed P (yards_p90 d) 1);
            ("TD Rate", percent (td_rate d));
            ("FG Rate", percent (fg_rate d));
            ("Turnover Rate", percent (turnover_rate d))]
  end.

(** The text of the card with the given title, when it is shown. *)
Definition card (s : State) (title : string) : option string :=
  match sim_cards s with
  | Some cards => lookup title cards
  | None => None
  end.

(** *** What the page shows *)

Definition submit_button (s : State) : Button :=
  mkButton (loading s) (if loading s then "Parsing..." else "Parse & Validate").

Definition warning_box (s : State) : option string := when_text (warning s).

(** The block under [result && (...)]: the normalized spec (the text of
    [JSON.stringify(result.spec, null, 2)], whose indentation the token
    tree does not show), the two inputs and the two buttons. *)
Record Controls : Type := mkControls {
  spec_text : option JSON.text;
  n_input : float;
  seed_input : Seed;
  play_button : Button;
  drive_button : Button
}.

Definition result_panel (s : State) : Slot Controls :=
  when_truthy (result s)
    (mkControls (JSON.stringify (get_field (result s) "spec")) (n s) (seed s)
       (mkButton (loading s) (if loading s then "Simulating..." else "Simulate Play"))
       (mkButton (loading s) (if loading s then "Simulating..." else "Simulate Drive"))).

(** The line under the cards, shown when [sim.assumptions?.length > 0]. *)
Definition assumptions_line (s : State) : option string :=
  match sim s with
  | None => None
  | Some d =>
      match assumptions d with
      | [] => None
      | _ :: _ =>
          Some ("Assumptions: " ++ concat " • " (assumptions d) ++
                " | seed " ++ Number_toString P (sim_seed d))
      end
  end.

Definition end_tag (e : DriveEnd) : string :=
  match e with
  | TD => "TD"
  | FG_GOOD => "FG_GOOD"
  | FG_MISS => "FG_MISS"
  | END_PUNT => "PUNT"
  | DOWNS => "DOWNS"
  | EXHAUSTED => "EXHAUSTED"
  end.

Definition result_tag (r : PlayResult) : string :=
  match r with
  | GAIN => "GAIN"
  | FIRST_DOWN => "FIRST_DOWN"
  | TOUCHDOWN => "TOUCHDOWN"
  | TURNOVER_ON_DOWNS => "TURNOVER_ON_DOWNS"
  | FIELD_GOAL_GOOD => "FIELD_GOAL_GOOD"
  | FIELD_GOAL_MISS => "FIELD_GOAL_MISS"
  | PUNT => "PUNT"
  end.

(** The line over the drive table. *)
Definition drive_line (d : DriveSummary) : string :=
  "Ended: " ++ end_tag (ended d) ++
  " • Points: " ++ Number_toString P (points_for_offense d) ++
  " • Time:" ++ " " ++ Number_toString P (time_elapsed_seconds d) ++ "s".

(** The cells of the row of one play. *)
Definition play_row (p : DrivePlay) : list string :=
  [Number_toString P (down p);
   Number_toString P (distance p);
   Number_toString P (yardline_100 p);
   call_type p;
   Number_toString P (yards p);
   result_tag (play_result p)].

(** The body of the drive table, shown when a drive is stored. *)
Definition drive_rows (s : State) : option (list (list string)) :=
  match drive s with
  | None => None
  | Some d => Some (List.map play_row (plays d))
  end.

Definition footer : string :=
  "API base: " ++ API ++
  ". Endpoints used: /parse-freeform, /simulate, /simulate-drive".

(** *** Where a handler leaves the state *)

(** The warning [onParse] ends with once it has stored the payload
    [data]: reading [data.warnings] throws on [null]; a truthy
    [warnings?.length] leads to [join], which only an array has. *)
Definition warning_of_payload (data : jsval) : option string :=
  match data with
  | JUndefined | JNull =>
      Some (or_else (msg_property_of_nullish P data "warnings") "Request failed")
  | _ =>
      let w := get_field data "warnings" in
      if length_truthy w
      then match w with
           | JArr l =>
               match Array_join P l " | " with
               | inl e => Some (or_else e "Request failed")
               | inr j => Some j
               end
           | _ => Some (or_else (msg_not_a_function P "join") "Request failed")
           end
      else None
  end.

(** The state [onParse] ends in when the network answers [o]. *)
Definition parse_settled (s : State) (o : FetchResult jsval) : State :=
  mkState (text s) (offense s) (defense s)
          (match payload o with Some data => data | None => JNull end)
          (match thrown o with
           | Some m => Some (or_else m "Request failed")
           | None =>
               match payload o with
               | Some data => warning_of_payload data
               | None => None
               end
           end)
          false (n s) (seed s) None None.

(** The state [onSimulatePlay] ends in when its guard lets it run. *)
Definition play_settled (s : State) (o : FetchResult SimSummary) : State :=
  mkState (text s) (offense s) (defense s) (result s)
          (match thrown o with
           | Some m => Some (or_else m "Sim request failed")
           | None => None
           end)
          false (n s) (seed s) (payload o) (drive s).

(** The state [onSimulateDrive] ends in when its guard lets it run. *)
Definition drive_settled (s : State) (o : FetchResult DriveSummary) : State :=
  mkState (text s) (offense s) (defense s) (result s)
          (match thrown o with
           | Some m => Some (or_else m "Drive sim failed")
           | None => None
           end)
          false (n s) (seed s) (sim s) (payload o).

(** In the state, a summary is stored only beside a parse result with
    a truthy [spec]. *)
Definition summaries_backed (s : State) : Prop :=
  (sim s <> None \/ drive s <> None) ->
  truthy (opt_get (result s) "spec") = true.


End Page.

End Builder.

(* ================================================================= *)
(** ** The parse-only builder page (frontend/src/app/builder/page.tsx) *)

Module ParsePage.

Record State : Type := mkState {
  text : string;
  offense : string;
  defense : string;
  result : jsval;
  warning : option string;
  loading : bool
}.

Definition init : State :=
  mkState "3rd & 8 on DAL 42, 2:05 Q4, down 3, deep middle pass, 11 personnel"
          "DAL" "PHI" JNull None false.

Inductive Action : Type :=
| setText (v : string)
| setOffense (v : string)
| setDefense (v : string)
| setResult (v : jsval)
| setWarning (v : option string)
| setLoading (v : bool).

Definition apply (a : Action) (s : State) : State :=
  match a with
  | setText v => mkState v (offense s) (defense s) (result s) (warning s) (loading s)
  | setOffense v => mkState (text s) v (defense s) (result s) (warning s) (loading s)
  | setDefense v => mkState (text s) (offense s) v (result s) (warning s) (loading s)
  | setResult v => mkState (text s) (offense s) (defense s) v (warning s) (loading s)
  | setWarning v => mkState (text s) (offense s) (defense s) (result s) v (loading s)
  | setLoading v => mkState (text s) (offense s) (defense s) (result s) (warning s) v
  end.

(** The setter calls that leave the team codes alone. *)
Definition keeps_codes (a : Action) : Prop :=
  match a with
  | setOffense _ | setDefense _ => False
  | _ => True
  end.

(** The state while the request of [onSubmit] is outstanding. *)
Definition submit_pending (s : State) : State :=
  mkState (text s) (offense s) (defense s) JNull None true.

Section Page.
Variable P : Platform.
Variable NEXT_PUBLIC_API_BASE : option string.

Local Open Scope proc_scope.

(** The [base] that [onSubmit] computes inside its [try]. *)
Definition base : string :=
  nullish NEXT_PUBLIC_API_BASE "http://localhost:8000".

Definition check_ok (res : Response jsval) : proc Action jsval unit :=
  if negb (ok res) then throw ("HTTP " ++ digits (status res)) else Ret tt.

Definition get (v : jsval) (k : string) : proc Action jsval jsval :=
  match v with
  | JUndefined | JNull => throw (msg_property_of_nullish P v k)
  | _ => Ret (get_field v k)
  end.

Definition call_join (w : jsval) (sep : string) : proc Action jsval string :=
  match w with
  | JArr l =>
      match Array_join P l sep with
      | inl e => throw e
      | inr j => Ret j
      end
  | _ => throw (msg_not_a_function P "join")
  end.

Definition parse_request (s : State) : Request :=
  mkRequest (base ++ "/parse-freeform") POST
    [("Content-Type", "application/json")]
    (JSON.stringify (JObj [("text", JStr (text s));
                           ("offense", JStr (offense s));
                           ("defense", JStr (defense s))]))
    None.

(** [onSubmit], after [e.preventDefault()]. *)
Definition onSubmit (s : State) : proc Action jsval unit :=
  call (setLoading true) ;;
  call (setWarning None) ;;
  call (setResult JNull) ;;
  try_finally
    (try_catch
       (res <- fetch (parse_request s) ;;
        check_ok res ;;
        data <- json res ;;
        call (setResult data) ;;
        w <- get data "warnings" ;;
        if length_truthy w
        then (j <- call_join w " | " ;; call (setWarning (Some j)))
        else Ret tt)
       (fun message => call (setWarning (Some (or_else message "Request failed")))))
    (call (setLoading false)).

Definition onChangeText (v : string) : Action := setText v.
Definition onChangeOffense (v : string) : Action := setOffense (toUpperCase P v).
Definition onChangeDefense (v : string) : Action := setDefense (toUpperCase P v).

Inductive Event : Type :=
| ChangeText (v : string)
| ChangeOffense (v : string)
| ChangeDefense (v : string)
| Submit (o : FetchResult jsval).

Definition step (s : State) (ev : Event) : State :=
  match ev with
  | ChangeText v => apply (onChangeText v) s
  | ChangeOffense v => apply (onChangeOffense v) s
  | ChangeDefense v => apply (onChangeDefense v) s
  | Submit o => final (exec apply (fun _ => o) (onSubmit s) s)
  end.

Definition steps (s : State) (evs : list Event) : State :=
  fold_left step evs s.

(** The value last entered in the offense input, if any, after [seen]. *)
Definition entered_offense (evs : list Event) (seen : option string) : option string :=
  fold_left (fun last ev => match ev with ChangeOffense v => Some v | _ => last end)
            evs seen.

(** The value last entered in the defense input, if any, after [seen]. *)
Definition entered_defense (evs : list Event) (seen : option string) : option string :=
  fold_left (fun last ev => match ev with ChangeDefense v => Some v | _ => last end)
            evs seen.

(** The code an input leads to: the upper-case form of what was entered
    last, or the default of the first render. *)
Definition code_of (default : string) (entered : option string) : string :=
  match entered with
  | Some v => toUpperCase P v
  | None => default
  end.

(** *** What the page shows *)

Definition submit_button (s : State) : Button :=
  mkButton (loading s) (if loading s then "Parsing..." else "Parse & Validate").

Definition warning_box (s : State) : option string := when_text (warning s).

(** The [pre] under [result && (...)]. *)
Definition result_panel (s : State) : Slot (option JSON.text) :=
  when_truthy (result s) (JSON.stringify (get_field (result s) "spec")).

Definition footer : string := "API: " ++ base ++ "/parse-freeform".

(** *** Where the handler leaves the state *)

Definition warning_of_payload (data : jsval) : option string :=
  match data with
  | JUndefined | JNull =>
      Some (or_else (msg_property_of_nullish P data "warnings") "Request failed")
  | _ =>
      let w := get_field data "warnings" in
      if length_truthy w
      then match w with
           | JArr l =>
               match Array_join P l " | " with
               | inl e => Some (or_else e "Request failed")
               | inr j => Some j
               end
           | _ => Some (or_else (msg_not_a_function P "join") "Request failed")
           end
      else None
  end.

(** The state [onSubmit] ends in when the network answers [o]. *)
Definition submit_settled (s : State) (o : FetchResult jsval) : State :=
  mkState (text s) (offense s) (defense s)
          (match payload o with Some data => data | None => JNull end)
          (match thrown o with
           | Some m => Some (or_else m "Request failed")
           | None =>
               match payload o with
               | Some data => warning_of_payload data
               | None => None
               end
           end)
          false.

End Page.

End ParsePage.

(* ================================================================= *)
(** ** The health page *)

Module Health.

Section Page.
Variable NEXT_PUBLIC_API_BASE : option string.

(** [process.env.NEXT_PUBLIC_API_BASE!]: the assertion is erased, the
    value is used as it is, and the template literal converts it. *)
Definition base : string := template NEXT_PUBLIC_API_BASE.

Definition health_request : Request :=
  mkRequest (base ++ "/health") GET [] None (Some "no-store").

(** What the page shows: the payload (pretty-printed by
    [JSON.stringify(data, null, 2)]) and the line under it. *)
Record View : Type := mkView {
  payload : option JSON.text;
  from_line : string
}.

Definition HealthPage : proc unit jsval View :=
  bind (fetch health_request) (fun res =>
  bind (json res) (fun data =>
  Ret (mkView (JSON.stringify data) ("From: " ++ base ++ "/health")))).

End Page.

End Health.

(* ================================================================= *)
(** ** The two builder pages side by side *)

(** The fields of the builder page that the parse-only page has too. *)
Definition parse_view (s : Builder.State) : ParsePage.State :=
  ParsePage.mkState (Builder.text s) (Builder.offense s) (Builder.defense s)
                    (Builder.result s) (Builder.warning s) (Builder.loading s).

(* ================================================================= *)
(** ** An engine for running the pages on examples *)

Module Example.

(** Number::toString where the examples need it: on whole numbers
    below 10^21, on NaN and on the infinities. *)
Definition whole_numeral (x : float) : string :=
  match Prim2SF x with
  | S754_nan => "NaN"
  | S754_infinity false => "Infinity"
  | S754_infinity true => "-Infinity"
  | S754_zero _ => "0"
  | S754_finite s m e =>
      let whole :=
        if (0 <=? e)%Z then Some (Z.pos m * 2 ^ e)%Z
        else if (Z.pos m mod 2 ^ (- e) =? 0)%Z then Some (Z.pos m / 2 ^ (- e))%Z
        else None in
      match whole with
      | Some k =>
          if (k <? 10 ^ 21)%Z
          then (if s then "-" else "") ++ digits (Z.to_N k)
          else ""
      | None => ""
      end
  end.

(** toUpperCase where the examples need it: on ASCII text. *)
Definition ascii_upper_char (c : ascii) : ascii :=
  let k := nat_of_ascii c in
  if ((97 <=? k) && (k <=? 122))%nat then ascii_of_nat (k - 32) else c.

Fixpoint ascii_upper (s : string) : string :=
  match s with
  | EmptyString => EmptyString
  | String c s' => String (ascii_upper_char c) (ascii_upper s')
  end.

(** The messages are V8's; the examples convert no string to a
    number. *)
Definition engine : Platform :=
  {| toUpperCase := ascii_upper;
     Number_toString := whole_numeral;
     StringToNumber := fun _ => nan;
     msg_property_of_nullish := fun v k =>
       "Cannot read properties of " ++
       (match v with JNull => "null" | _ => "undefined" end) ++
       " (reading '" ++ k ++ "')";
     msg_not_a_function := fun k => "data.warnings." ++ k ++ " is not a function";
     msg_no_primitive := "Cannot convert object to primitive value" |}.

Definition summary : SimSummary :=
  mkSimSummary 6.25 (-2) 5 14.5 0.231 0.231 0.231 ["neutral weather"] 42.

Definition parsed_play : jsval :=
  JObj [("spec", JObj [("down", JNum 3); ("distance", JNum 8)]);
        ("warnings", JArr [JStr "clock assumed running"])].

(** The builder page after a successful parse and a simulation. *)
Definition simulated : Builder.State :=
  Builder.mkState "3rd & 8" "DAL" "PHI" parsed_play None false 1000
                  (Builder.SeedNumber 42) (Some summary) None.

(** The same with the seed input cleared. *)
Definition unseeded : Builder.State :=
  Builder.mkState "3rd & 8" "DAL" "PHI" parsed_play None false 1000
                  Builder.SeedEmpty (Some summary) None.

Definition not_found {B : Type} : FetchResult B :=
  Resolved (mkResponse 404 (inl "Unexpected token < in JSON at position 0")).

(** A payload without a [spec]. *)
Definition specless : Builder.State :=
  Builder.mkState "3rd & 8" "DAL" "PHI" (JObj [("detail", JStr "no play found")])
                  None false 1000 (Builder.SeedNumber 42) None None.

Definition touchdown_drive : DriveSummary :=
  mkDriveSummary
    [mkDrivePlay 1 10 42 "PASS" 12 FIRST_DOWN;
     mkDrivePlay 1 10 30 "PASS" 30 TOUCHDOWN]
    7 35 TD.

End Example.

(* ================================================================= *)
(** * Properties *)

(** ** Running handlers *)

Section AsyncFacts.
Context {Act B St : Type}.
Variable apply : Act -> St -> St.
Variable net : Request -> FetchResult B.

Local Abbreviation run := (exec apply net).

Lemma exec_bind {A C : Type} (p : proc Act B A) (f : A -> proc Act B C) (s : St) :
  run (bind p f) s =
  match completion (run p s) with
  | inl m => mkRun (final (run p s)) (requests (run p s)) (inl m)
  | inr a =>
      let r2 := run (f a) (final (run p s)) in
      mkRun (final r2) (requests (run p s) ++ requests r2)%list (completion r2)
  end.
Proof.
  revert s; induction p as [a | m | a k IH | r k IH]; intros s; simpl.
  - destruct (run (f a) s); reflexivity.
  - reflexivity.
  - apply IH.
  - rewrite IH. destruct (completion (run (k (net r)) s)); reflexivity.
Qed.

Lemma exec_try_catch {A : Type} (p : proc Act B A) (h : string -> proc Act B A) (s : St) :
  run (try_catch p h) s =
  match completion (run p s) with
  | inl m =>
      let r2 := run (h m) (final (run p s)) in
      mkRun (final r2) (requests (run p s) ++ requests r2)%list (completion r2)
  | inr a => mkRun (final (run p s)) (requests (run p s)) (inr a)
  end.
Proof.
  revert s; induction p as [a | m | a k IH | r k IH]; intros s; simpl.
  - reflexivity.
  - destruct (run (h m) s); reflexivity.
  - apply IH.
  - rewrite IH. destruct (completion (run (k (net r)) s)); reflexivity.
Qed.

(** The [finally] block runs after the [try] block, however that one
    ended. *)
Lemma final_try_finally {A : Type} (p : proc Act B A) (fin : proc Act B unit) (s : St) :
  final (run (try_finally p fin) s) = final (run fin (final (run p s))).
Proof.
  revert s; induction p as [a | m | a k IH | r k IH]; intros s; simpl.
  - rewrite exec_bind. destruct (completion (run fin s)); reflexivity.
  - rewrite exec_bind. destruct (completion (run fin s)); reflexivity.
  - apply IH.
  - apply IH.
Qed.

Lemma requests_try_finally {A : Type} (p : proc Act B A) (fin : proc Act B unit) (s : St) :
  requests (run (try_finally p fin) s) =
  (requests (run p s) ++ requests (run fin (final (run p s))))%list.
Proof.
  revert s; induction p as [a | m | a k IH | r k IH]; intros s; simpl.
  - rewrite exec_bind. destruct (completion (run fin s)); simpl;
      rewrite ?app_nil_r; reflexivity.
  - rewrite exec_bind. destruct (completion (run fin s)); simpl;
      rewrite ?app_nil_r; reflexivity.
  - apply IH.
  - rewrite IH. reflexivity.
Qed.

Lemma quiet_requests {A : Type} (p : proc Act B A) (s : St) :
  quiet p -> requests (run p s) = [].
Proof.
  revert s; induction p as [a | m | a k IH | r k IH]; intros s Hq; simpl in *;
    auto; contradiction.
Qed.

Lemma quiet_bind {A C : Type} (p : proc Act B A) (f : A -> proc Act B C) :
  quiet p -> (forall a, quiet (f a)) -> quiet (bind p f).
Proof.
  induction p as [a | m | a k IH | r k IH]; simpl; intros Hp Hf; auto.
Qed.

Lemma calls_all_bind {A C : Type} (Q : Act -> Prop)
  (p : proc Act B A) (f : A -> proc Act B C) :
  calls_all Q p -> (forall a, calls_all Q (f a)) -> calls_all Q (bind p f).
Proof.
  induction p as [a | m | a k IH | r k IH]; simpl; intros Hp Hf; auto.
  destruct Hp; auto.
Qed.

Lemma calls_all_try_catch {A : Type} (Q : Act -> Prop)
  (p : proc Act B A) (h : string -> proc Act B A) :
  calls_all Q p -> (forall m, calls_all Q (h m)) -> calls_all Q (try_catch p h).
Proof.
  induction p as [a | m | a k IH | r k IH]; simpl; intros Hp Hh; auto.
  destruct Hp; auto.
Qed.

Lemma calls_all_try_finally {A : Type} (Q : Act -> Prop)
  (p : proc Act B A) (fin : proc Act B unit) :
  calls_all Q p -> calls_all Q fin -> calls_all Q (try_finally p fin).
Proof.
  induction p as [a | m | a k IH | r k IH]; simpl; intros Hp Hf; auto.
  - apply calls_all_bind; simpl; auto.
  - apply calls_all_bind; simpl; auto.
  - destruct Hp; auto.
Qed.

(** What every setter call of a handler preserves, the handler
    preserves. *)
Lemma calls_all_final {A : Type} (Q : Act -> Prop) (I : St -> Prop)
  (p : proc Act B A) (s : St) :
  (forall a s', Q a -> I s' -> I (apply a s')) ->
  calls_all Q p -> I s -> I (final (run p s)).
Proof.
  intros HQ. revert s; induction p as [a | m | a k IH | r k IH];
    intros s Hp Hs; simpl in *; auto.
  destruct Hp; auto.
Qed.

End AsyncFacts.

(** ** The handlers of the builder page *)

Section BuilderFacts.
Variable P : Platform.
Variable env : option string.

Import Builder.

Lemma check_ok_quiet {B : Type} (res : Response B) : quiet (@check_ok B res).
Proof. unfold check_ok. destruct (negb (ok res)); exact I. Qed.

Lemma json_quiet {B : Type} (res : Response B) : quiet (@json Action B res).
Proof. unfold json. destruct (json_body res); exact I. Qed.

Lemma get_quiet {B : Type} (v : jsval) (k : string) : quiet (@get P B v k).
Proof. destruct v; exact I. Qed.

Lemma call_join_quiet {B : Type} (w : jsval) (sep : string) :
  quiet (@call_join P B w sep).
Proof.
  destruct w; try exact I. simpl. destruct (Array_join P items sep); exact I.
Qed.

Lemma onParse_requests (net : Request -> FetchResult jsval) (s : State) :
  requests (exec apply net (onParse P env s) s) =
  [(parse_request env s, parse_pending s)].
Proof.
  unfold onParse. simpl.
  rewrite requests_try_finally, exec_try_catch. simpl.
  fold (parse_pending s).
  set (body := bind _ _).
  assert (Hq : quiet body).
  { subst body. destruct (net (parse_request env s)) as [m | res]; simpl; [exact I |].
    apply quiet_bind; [apply check_ok_quiet | intros _].
    apply quiet_bind; [apply json_quiet | intros data]. simpl.
    apply quiet_bind; [apply get_quiet | intros w].
    destruct (length_truthy w); [| exact I].
    apply quiet_bind; [apply call_join_quiet | intros j; exact I]. }
  rewrite (quiet_requests apply net body (parse_pending s) Hq).
  destruct (completion (exec apply net body (parse_pending s))); reflexivity.
Qed.

Lemma onParse_final (net : Request -> FetchResult jsval) (s : State) :
  exists s', final (exec apply net (onParse P env s) s) = apply (setLoading false) s'.
Proof.
  unfold onParse. simpl. rewrite final_try_finally. simpl. eexists; reflexivity.
Qed.

Lemma onParse_failed (net : Request -> FetchResult jsval) (s : State) :
  failed (net (parse_request env s)) = true ->
  final (exec apply net (onParse P env s) s) =
  mkState (text s) (offense s) (defense s) JNull
          (Some (or_else (failure_message (net (parse_request env s))) "Request failed"))
          false (n s) (seed s) None None.
Proof.
  intros Hf. unfold onParse. simpl.
  destruct (net (parse_request env s)) as [m | res]; simpl in *.
  - reflexivity.
  - unfold check_ok. rewrite Hf. reflexivity.
Qed.

Lemma onSimulatePlay_unguarded (net : Request -> FetchResult SimSummary)
  (s : State) :
  truthy (opt_get (result s) "spec") = false ->
  exec apply net (onSimulatePlay env s) s = mkRun s [] (inr tt).
Proof. intros Hg. unfold onSimulatePlay. rewrite Hg. reflexivity. Qed.

Lemma onSimulateDrive_unguarded (net : Request -> FetchResult DriveSummary)
  (s : State) :
  truthy (opt_get (result s) "spec") = false ->
  exec apply net (onSimulateDrive env s) s = mkRun s [] (inr tt).
Proof. intros Hg. unfold onSimulateDrive. rewrite Hg. reflexivity. Qed.

Lemma onSimulatePlay_requests (net : Request -> FetchResult SimSummary) (s : State) :
  truthy (opt_get (result s) "spec") = true ->
  requests (exec apply net (onSimulatePlay env s) s) =
  [(simulate_request env s, play_pending s)].
Proof.
  intros Hg. unfold onSimulatePlay. rewrite Hg. simpl.
  fold (play_pending s).
  destruct (net (simulate_request env s)) as [m | res]; simpl; [reflexivity |].
  unfold check_ok, json.
  destruct (negb (ok res)); simpl; [reflexivity |].
  destruct (json_body res); reflexivity.
Qed.

Lemma onSimulateDrive_requests (net : Request -> FetchResult DriveSummary) (s : State) :
  truthy (opt_get (result s) "spec") = true ->
  requests (exec apply net (onSimulateDrive env s) s) =
  [(drive_request env s, drive_pending s)].
Proof.
  intros Hg. unfold onSimulateDrive. rewrite Hg. simpl.
  fold (drive_pending s).
  destruct (net (drive_request env s)) as [m | res]; simpl; [reflexivity |].
  unfold check_ok, json.
  destruct (negb (ok res)); simpl; [reflexivity |].
  destruct (json_body res); reflexivity.
Qed.

Lemma onSimulatePlay_final (net : Request -> FetchResult SimSummary) (s : State) :
  truthy (opt_get (result s) "spec") = true ->
  exists s', final (exec apply net (onSimulatePlay env s) s) = apply (setLoading false) s'.
Proof.
  intros Hg. unfold onSimulatePlay. rewrite Hg. simpl.
  rewrite final_try_finally. simpl. eexists; reflexivity.
Qed.

Lemma onSimulateDrive_final (net : Request -> FetchResult DriveSummary) (s : State) :
  truthy (opt_get (result s) "spec") = true ->
  exists s', final (exec apply net (onSimulateDrive env s) s) = apply (setLoading false) s'.
Proof.
  intros Hg. unfold onSimulateDrive. rewrite Hg. simpl.
  rewrite final_try_finally. simpl. eexists; reflexivity.
Qed.

Lemma onSimulatePlay_failed (net : Request -> FetchResult SimSummary) (s : State) :
  truthy (opt_get (result s) "spec") = true ->
  failed (net (simulate_request env s)) = true ->
  final (exec apply net (onSimulatePlay env s) s) =
  mkState (text s) (offense s) (defense s) (result s)
          (Some (or_else (failure_message (net (simulate_request env s)))
                         "Sim request failed"))
          false (n s) (seed s) None (drive s).
Proof.
  intros Hg Hf. unfold onSimulatePlay. rewrite Hg. simpl.
  destruct (net (simulate_request env s)) as [m | res]; simpl in *.
  - reflexivity.
  - unfold check_ok. rewrite Hf. reflexivity.
Qed.

Lemma onSimulateDrive_failed (net : Request -> FetchResult DriveSummary) (s : State) :
  truthy (opt_get (result s) "spec") = true ->
  failed (net (drive_request env s)) = true ->
  final (exec apply net (onSimulateDrive env s) s) =
  mkState (text s) (offense s) (defense s) (result s)
          (Some (or_else (failure_message (net (drive_request env s)))
                         "Drive sim failed"))
          false (n s) (seed s) (sim s) None.
Proof.
  intros Hg Hf. unfold onSimulateDrive. rewrite Hg. simpl.
  destruct (net (drive_request env s)) as [m | res]; simpl in *.
  - reflexivity.
  - unfold check_ok. rewrite Hf. reflexivity.
Qed.

End BuilderFacts.

(** ** The handler of the parse-only page *)

Section ParsePageFacts.
Variable P : Platform.
Variable env : option string.

Import ParsePage.

Lemma onSubmit_requests (net : Request -> FetchResult jsval) (s : State) :
  requests (exec apply net (onSubmit P env s) s) =
  [(parse_request env s, submit_pending s)].
Proof.
  unfold onSubmit. simpl.
  rewrite requests_try_finally, exec_try_catch. simpl.
  fold (submit_pending s).
  set (body := bind _ _).
  assert (Hq : quiet body).
  { subst body. destruct (net (parse_request env s)) as [m | res]; simpl; [exact I |].
    apply quiet_bind; [unfold check_ok; destruct (negb (ok res)); exact I | intros _].
    apply quiet_bind; [unfold json; destruct (json_body res); exact I | intros data].
    simpl.
    apply quiet_bind; [destruct data; exact I | intros w].
    destruct (length_truthy w); [| exact I].
    apply quiet_bind; [| intros j; exact I].
    destruct w; try exact I. simpl. destruct (Array_join P items " | "); exact I. }
  rewrite (quiet_requests apply net body (submit_pending s) Hq).
  destruct (completion (exec apply net body (submit_pending s))); reflexivity.
Qed.

Lemma onSubmit_final (net : Request -> FetchResult jsval) (s : State) :
  exists s', final (exec apply net (onSubmit P env s) s) = apply (setLoading false) s'.
Proof.
  unfold onSubmit. simpl. rewrite final_try_finally. simpl. eexists; reflexivity.
Qed.

Lemma onSubmit_failed (net : Request -> FetchResult jsval) (s : State) :
  failed (net (parse_request env s)) = true ->
  final (exec apply net (onSubmit P env s) s) =
  mkState (text s) (offense s) (defense s) JNull
          (Some (or_else (failure_message (net (parse_request env s))) "Request failed"))
          false.
Proof.
  intros Hf. unfold onSubmit. simpl.
  destruct (net (parse_request env s)) as [m | res]; simpl in *.
  - reflexivity.
  - unfold check_ok. rewrite Hf. reflexivity.
Qed.

End ParsePageFacts.

(** ** The model on examples *)

Example digits_of_status : digits 404 = "404" /\ digits 0 = "0" /\ digits 503 = "503".
Proof. repeat split. Qed.

Example toUpperCase_codes :
  toUpperCase Example.engine "dal" = "DAL" /\
  toUpperCase Example.engine "Phi" = "PHI" /\
  toUpperCase Example.engine "kc-2" = "KC-2".
Proof. repeat split. Qed.

Example toFixed_rounding (P : Platform) :
  Fixed.toFixed P 0.25 1 = "0.3" /\
  Fixed.toFixed P 1.45 1 = "1.4" /\
  Fixed.toFixed P 1.005 2 = "1.00" /\
  Fixed.toFixed P (-0.04) 1 = "-0.0" /\
  Fixed.toFixed P 123.456 0 = "123" /\
  Fixed.toFixed P 0 2 = "0.00" /\
  Fixed.toFixed P (-0) 1 = "0.0" /\
  Fixed.toFixed P nan 1 = "NaN" /\
  Fixed.toFixed P neg_infinity 1 = "-Infinity".
Proof. repeat split. Qed.

Example join_of_warnings :
  Array_join Example.engine [JStr "a"; JNull; JArr [JNum 1; JArr [JNum 2; JNum 3]]] " | "
  = inr "a |  | 1,2,3".
Proof. reflexivity. Qed.

(** A successful parse stores the payload and joins its warnings. *)
Example parse_success_run :
  final (exec Builder.apply
              (fun _ => Resolved (mkResponse 200 (inr Example.parsed_play)))
              (Builder.onParse Example.engine None (Builder.init 7)) (Builder.init 7))
  = Builder.mkState
      "3rd & 8 on DAL 42, 2:05 Q4, down 3, deep middle pass, 11 personnel"
      "DAL" "PHI" Example.parsed_play (Some "clock assumed running") false
      1000 (Builder.SeedNumber 7) None None.
Proof. reflexivity. Qed.

(** A payload that is [null] is stored, and reading its warnings throws. *)
Example parse_null_run :
  final (exec Builder.apply
              (fun _ => Resolved (mkResponse 200 (inr JNull)))
              (Builder.onParse Example.engine None (Builder.init 7)) (Builder.init 7))
  = Builder.mkState
      "3rd & 8 on DAL 42, 2:05 Q4, down 3, deep middle pass, 11 personnel"
      "DAL" "PHI" JNull
      (Some "Cannot read properties of null (reading 'warnings')") false
      1000 (Builder.SeedNumber 7) None None.
Proof. reflexivity. Qed.

(** A successful simulation stores the summary and keeps the rest. *)
Example simulate_success_run :
  exec Builder.apply
       (fun _ => Resolved (mkResponse 200 (inr Example.summary)))
       (Builder.onSimulatePlay (Some "https://api.example") Example.unseeded)
       Example.unseeded
  = mkRun Example.unseeded
      [(mkRequest "https://api.example/simulate" POST
                  [("Content-Type", "application/json")]
                  (Some (JSON.TObj
                           [("spec", JSON.TObj [("down", JSON.TNum 3);
                                                ("distance", JSON.TNum 8)]);
                            ("n", JSON.TNum 1000)]))
                  None,
        Builder.play_pending Example.unseeded)]
      (inr tt).
Proof. reflexivity. Qed.

(* ================================================================= *)
(** * The stated properties *)

(** ** Simulating before a parse *)

(** C1.  In a state that stores no parse result with a [spec] field
    ([result?.spec] is [undefined]), the single-play simulation and the
    drive simulation do nothing: the run issues no request, ends
    normally, and ends in the state it started from. *)
Theorem simulate_without_spec_is_noop
  (env : option string) (s : Builder.State)
  (net_play : Request -> FetchResult SimSummary)
  (net_drive : Request -> FetchResult DriveSummary) :
  opt_get (Builder.result s) "spec" = JUndefined ->
  exec Builder.apply net_play (Builder.onSimulatePlay env s) s = mkRun s [] (inr tt) /\
  exec Builder.apply net_drive (Builder.onSimulateDrive env s) s = mkRun s [] (inr tt).
Proof.
  intros Hspec. split.
  - apply onSimulatePlay_unguarded. rewrite Hspec. reflexivity.
  - apply onSimulateDrive_unguarded. rewrite Hspec. reflexivity.
Qed.

Lemma simulate_without_spec_witness :
  opt_get (Builder.result (Builder.init 7)) "spec" = JUndefined /\
  exec Builder.apply (fun _ => Rejected "offline")
       (Builder.onSimulatePlay None (Builder.init 7)) (Builder.init 7)
  = mkRun (Builder.init 7) [] (inr tt) /\
  exec Builder.apply (fun _ => Rejected "offline")
       (Builder.onSimulateDrive None (Builder.init 7)) (Builder.init 7)
  = mkRun (Builder.init 7) [] (inr tt).
Proof.
  split; [reflexivity |].
  apply (simulate_without_spec_is_noop None (Builder.init 7)
           (fun _ => Rejected "offline") (fun _ => Rejected "offline")).
  reflexivity.
Defined.

(** ** The parse request *)

(** C6.  Submitting the parse form issues exactly one request: a POST to
    [/parse-freeform] under the API base, whose JSON body is the object
    with the members [text], [offense] and [defense] holding the current
    values, on the builder page and on the parse-only page. *)
Theorem parse_issues_one_post
  (P : Platform) (env : option string)
  (s : Builder.State) (net : Request -> FetchResult jsval)
  (s0 : ParsePage.State) (net0 : Request -> FetchResult jsval) :
  List.map fst (requests (exec Builder.apply net (Builder.onParse P env s) s)) =
  [mkRequest (Builder.API env ++ "/parse-freeform") POST
             [("Content-Type", "application/json")]
             (Some (JSON.TObj [("text", JSON.TStr (Builder.text s));
                               ("offense", JSON.TStr (Builder.offense s));
                               ("defense", JSON.TStr (Builder.defense s))]))
             (Some "no-store")] /\
  List.map fst (requests (exec ParsePage.apply net0 (ParsePage.onSubmit P env s0) s0)) =
  [mkRequest (ParsePage.base env ++ "/parse-freeform") POST
             [("Content-Type", "application/json")]
             (Some (JSON.TObj [("text", JSON.TStr (ParsePage.text s0));
                               ("offense", JSON.TStr (ParsePage.offense s0));
                               ("defense", JSON.TStr (ParsePage.defense s0))]))
             None].
Proof.
  rewrite onParse_requests, onSubmit_requests. split; reflexivity.
Qed.

(** ** The loading flag *)

(** C7.  In every run of parse, of the single-play simulation and of the
    drive simulation, the loading flag is true in the state that is
    current while a request is outstanding; parse always issues its
    request and ends with the flag false, whatever the network answers,
    and so does a simulation whose guard lets it issue its request. *)
Theorem loading_flag_brackets_request
  (P : Platform) (env : option string) (s : Builder.State)
  (net : Request -> FetchResult jsval)
  (net_play : Request -> FetchResult SimSummary)
  (net_drive : Request -> FetchResult DriveSummary)
  (s0 : ParsePage.State) (net0 : Request -> FetchResult jsval) :
  let parse := exec Builder.apply net (Builder.onParse P env s) s in
  let play := exec Builder.apply net_play (Builder.onSimulatePlay env s) s in
  let drive := exec Builder.apply net_drive (Builder.onSimulateDrive env s) s in
  let submit := exec ParsePage.apply net0 (ParsePage.onSubmit P env s0) s0 in
  (Forall (fun q => Builder.loading (snd q) = true) (requests parse) /\
   List.length (requests parse) = 1 /\
   Builder.loading (final parse) = false) /\
  (Forall (fun q => Builder.loading (snd q) = true) (requests play) /\
   (truthy (opt_get (Builder.result s) "spec") = true ->
    List.length (requests play) = 1 /\ Builder.loading (final play) = false)) /\
  (Forall (fun q => Builder.loading (snd q) = true) (requests drive) /\
   (truthy (opt_get (Builder.result s) "spec") = true ->
    List.length (requests drive) = 1 /\ Builder.loading (final drive) = false)) /\
  (Forall (fun q => ParsePage.loading (snd q) = true) (requests submit) /\
   List.length (requests submit) = 1 /\
   ParsePage.loading (final submit) = false).
Proof.
  cbv zeta. repeat split.
  - rewrite onParse_requests. repeat constructor.
  - rewrite onParse_requests. reflexivity.
  - destruct (onParse_final P env net s) as [s' ->]. reflexivity.
  - destruct (truthy (opt_get (Builder.result s) "spec")) eqn:Hg.
    + rewrite onSimulatePlay_requests by assumption. repeat constructor.
    + rewrite onSimulatePlay_unguarded by assumption. constructor.
  - rewrite onSimulatePlay_requests by assumption. reflexivity.
  - destruct (onSimulatePlay_final env net_play s H) as [s' ->]. reflexivity.
  - destruct (truthy (opt_get (Builder.result s) "spec")) eqn:Hg.
    + rewrite onSimulateDrive_requests by assumption. repeat constructor.
    + rewrite onSimulateDrive_unguarded by assumption. constructor.
  - rewrite onSimulateDrive_requests by assumption. reflexivity.
  - destruct (onSimulateDrive_final env net_drive s H) as [s' ->]. reflexivity.
  - rewrite onSubmit_requests. repeat constructor.
  - rewrite onSubmit_requests. reflexivity.
  - destruct (onSubmit_final P env net0 s0) as [s' ->]. reflexivity.
Qed.

(** ** A response outside 200..299 to the parse request *)

(** C3.  When the parse request is answered with a status outside
    200..299, the warning afterwards is [HTTP] followed by the decimal
    digits of the status, and the parse result is [null], on the builder
    page and on the parse-only page. *)
Theorem parse_http_error_warning
  (P : Platform) (env : option string) (res : Response jsval)
  (s : Builder.State) (s0 : ParsePage.State) :
  ok res = false ->
  let run := exec Builder.apply (fun _ => Resolved res) (Builder.onParse P env s) s in
  let run0 := exec ParsePage.apply (fun _ => Resolved res) (ParsePage.onSubmit P env s0) s0 in
  (Builder.warning (final run) = Some ("HTTP " ++ digits (status res)) /\
   Builder.result (final run) = JNull) /\
  (ParsePage.warning (final run0) = Some ("HTTP " ++ digits (status res)) /\
   ParsePage.result (final run0) = JNull).
Proof.
  intros Hok. cbv zeta.
  rewrite onParse_failed by (simpl; rewrite Hok; reflexivity).
  rewrite onSubmit_failed by (simpl; rewrite Hok; reflexivity).
  repeat split.
Qed.

Lemma parse_http_error_witness :
  ok (mkResponse 404 (inl "Unexpected token" : string + jsval)) = false /\
  Builder.warning
    (final (exec Builder.apply
                 (fun _ => Resolved (mkResponse 404 (inl "Unexpected token")))
                 (Builder.onParse Example.engine None Example.simulated)
                 Example.simulated))
  = Some "HTTP 404".
Proof.
  split; [reflexivity |].
  exact (proj1 (proj1 (parse_http_error_warning Example.engine None
                         (mkResponse 404 (inl "Unexpected token"))
                         Example.simulated ParsePage.init eq_refl))).
Defined.

(** ** Failed requests *)

(** C4, as the code has it.  When the request of an operation fails (the
    network rejects it, or the status is outside 200..299), the loading
    flag is false afterwards and the results of the other kinds are
    unchanged, but the kind the operation refreshes was cleared before
    the request and stays cleared: a failed parse leaves the parse
    result, the simulation summary and the drive summary all [null]; a
    failed single-play simulation leaves the parse result and the drive
    summary as they were and the simulation summary [null]; a failed
    drive simulation leaves the parse result and the simulation summary
    as they were and the drive summary [null]. *)
Theorem failed_request_recovery
  (P : Platform) (env : option string) (s : Builder.State) (s0 : ParsePage.State)
  (o : FetchResult jsval) (o_play : FetchResult SimSummary)
  (o_drive : FetchResult DriveSummary) :
  let parse := final (exec Builder.apply (fun _ => o) (Builder.onParse P env s) s) in
  let play := final (exec Builder.apply (fun _ => o_play) (Builder.onSimulatePlay env s) s) in
  let drive := final (exec Builder.apply (fun _ => o_drive) (Builder.onSimulateDrive env s) s) in
  let submit := final (exec ParsePage.apply (fun _ => o) (ParsePage.onSubmit P env s0) s0) in
  (failed o = true ->
   Builder.loading parse = false /\ Builder.result parse = JNull /\
   Builder.sim parse = None /\ Builder.drive parse = None) /\
  (failed o_play = true -> truthy (opt_get (Builder.result s) "spec") = true ->
   Builder.loading play = false /\ Builder.result play = Builder.result s /\
   Builder.sim play = None /\ Builder.drive play = Builder.drive s) /\
  (failed o_drive = true -> truthy (opt_get (Builder.result s) "spec") = true ->
   Builder.loading drive = false /\ Builder.result drive = Builder.result s /\
   Builder.sim drive = Builder.sim s /\ Builder.drive drive = None) /\
  (failed o = true ->
   ParsePage.loading submit = false /\ ParsePage.result submit = JNull).
Proof.
  cbv zeta. split; [| split; [| split]].
  - intros Ho. rewrite onParse_failed by assumption. repeat split.
  - intros Ho Hg. rewrite onSimulatePlay_failed by assumption. repeat split.
  - intros Ho Hg. rewrite onSimulateDrive_failed by assumption. repeat split.
  - intros Ho. rewrite onSubmit_failed by assumption. repeat split.
Qed.

Lemma failed_request_recovery_witness :
  failed (Rejected "Failed to fetch" : FetchResult SimSummary) = true /\
  truthy (opt_get (Builder.result Example.simulated) "spec") = true /\
  Builder.loading
    (final (exec Builder.apply (fun _ => Rejected "Failed to fetch")
                 (Builder.onSimulatePlay None Example.simulated) Example.simulated))
  = false /\
  Builder.drive
    (final (exec Builder.apply (fun _ => Rejected "Failed to fetch")
                 (Builder.onSimulatePlay None Example.simulated) Example.simulated))
  = Builder.drive Example.simulated.
Proof.
  split; [reflexivity | split; [reflexivity |]].
  pose proof (proj1 (proj2
    (failed_request_recovery Example.engine None Example.simulated ParsePage.init
       Example.not_found (Rejected "Failed to fetch") (Rejected "Failed to fetch")))
    eq_refl eq_refl) as (Hl & _ & _ & Hd).
  exact (conj Hl Hd).
Defined.

(** C4, as it is stated, fails: a single-play simulation that fails on
    the network leaves no simulation summary where one was stored. *)
Lemma failed_simulation_clears_summary :
  failed (Rejected "Failed to fetch" : FetchResult SimSummary) = true /\
  Builder.sim Example.simulated = Some Example.summary /\
  Builder.sim
    (final (exec Builder.apply (fun _ => Rejected "Failed to fetch")
                 (Builder.onSimulatePlay None Example.simulated) Example.simulated))
  <> Builder.sim Example.simulated.
Proof.
  split; [reflexivity | split; [reflexivity |]].
  simpl. discriminate.
Qed.

(** ** The API base *)

(** C5, as the code has it.  The two builder pages take the API base
    from the environment when it is set there and use
    [http://localhost:8000] otherwise, and their requests go to paths
    under it; the health page takes the base from the environment when
    it is set there, its one request goes to [/health] under it, and it
    has no default. *)
Theorem api_base_address
  (env : option string) (s : Builder.State) (s0 : ParsePage.State) :
  (Builder.API env =
     match env with Some v => v | None => "http://localhost:8000" end /\
   url (Builder.parse_request env s) = Builder.API env ++ "/parse-freeform" /\
   url (Builder.simulate_request env s) = Builder.API env ++ "/simulate" /\
   url (Builder.drive_request env s) = Builder.API env ++ "/simulate-drive") /\
  (ParsePage.base env =
     match env with Some v => v | None => "http://localhost:8000" end /\
   url (ParsePage.parse_request env s0) = ParsePage.base env ++ "/parse-freeform") /\
  (forall v net,
     Health.base (Some v) = v /\
     List.map (fun q => url (fst q))
              (requests (exec (fun _ st => st) net (Health.HealthPage (Some v)) tt))
     = [v ++ "/health"]).
Proof.
  split; [| split].
  - repeat split; destruct env; reflexivity.
  - repeat split; destruct env; reflexivity.
  - intros v net. split; [reflexivity |].
    unfold Health.HealthPage. simpl.
    destruct (net (Health.health_request (Some v))) as [m | res]; simpl;
      [reflexivity |].
    unfold json. destruct (json_body res); reflexivity.
Qed.

(** C5, as it is stated, fails on the health page: with nothing set in
    the environment its base is not the loopback address, and the
    request goes to [undefined/health]. *)
Lemma health_base_has_no_default :
  Health.base None <> "http://localhost:8000" /\
  List.map (fun q => url (fst q))
           (requests (exec (fun _ st => st) (fun _ => Rejected "Invalid URL")
                           (Health.HealthPage None) tt))
  = ["undefined/health"].
Proof.
  split; [discriminate | reflexivity].
Qed.

(** ** The bodies of the simulation requests *)

Lemma serialize_defined (v : jsval) :
  truthy v = true -> exists t, JSON.serialize v = Some t.
Proof.
  destruct v; simpl; intros Ht; try discriminate; eexists; reflexivity.
Qed.

Lemma serialize_number (x : float) :
  is_finite x = true -> JSON.serialize (JNum x) = Some (JSON.TNum x).
Proof. intros Hx. simpl. rewrite Hx. reflexivity. Qed.

(** The text of an object literal with the properties [spec], [n] and
    [seed], in this order, when [spec] is not [undefined]. *)
Lemma stringify_simulation_payload (spec seedv : jsval) (count : float) (t : JSON.text) :
  JSON.serialize spec = Some t ->
  JSON.stringify (JObj [("spec", spec); ("n", JNum count); ("seed", seedv)]) =
  Some (JSON.TObj
          (("spec", t)
           :: ("n", if is_finite count then JSON.TNum count else JSON.TNull)
           :: match JSON.serialize seedv with
              | Some ts => [("seed", ts)]
              | None => []
              end)).
Proof.
  intros Hspec. unfold JSON.stringify. simpl. rewrite Hspec.
  destruct (JSON.serialize seedv); reflexivity.
Qed.

Lemma guarded_spec (v : jsval) :
  truthy (opt_get v "spec") = true -> opt_get v "spec" = get_field v "spec".
Proof. destruct v; simpl; intros H; try discriminate; reflexivity. Qed.

(** C2.  When a parse result with a truthy [spec] is stored, the
    single-play simulation issues one request, a POST to [/simulate]
    whose body is the text of the object holding that very [spec], the
    current sample count [n] and the seed property: the member [spec] of
    the body is the text of the stored [spec] alone, the member [n] the
    text of [n].  The drive simulation issues one request, a POST to
    [/simulate-drive], with the same [spec] member and the member [n]
    equal to 1 whatever the sample count is. *)
Theorem simulate_requests_carry_spec
  (env : option string) (s : Builder.State)
  (net_play : Request -> FetchResult SimSummary)
  (net_drive : Request -> FetchResult DriveSummary) :
  truthy (opt_get (Builder.result s) "spec") = true ->
  let spec := get_field (Builder.result s) "spec" in
  let play := Builder.simulate_request env s in
  let drive := Builder.drive_request env s in
  (List.map fst (requests (exec Builder.apply net_play (Builder.onSimulatePlay env s) s))
   = [play] /\
   url play = Builder.API env ++ "/simulate" /\ method play = POST /\
   body play = JSON.stringify (JObj [("spec", spec); ("n", JNum (Builder.n s));
                                     ("seed", Builder.seed_property s)]) /\
   JSON.stringify spec <> None /\
   JSON.member "spec" (body play) = JSON.stringify spec /\
   JSON.member "n" (body play) = JSON.stringify (JNum (Builder.n s)) /\
   (is_finite (Builder.n s) = true ->
    JSON.member "n" (body play) = Some (JSON.TNum (Builder.n s)))) /\
  (List.map fst (requests (exec Builder.apply net_drive (Builder.onSimulateDrive env s) s))
   = [drive] /\
   url drive = Builder.API env ++ "/simulate-drive" /\ method drive = POST /\
   body drive = JSON.stringify (JObj [("spec", spec); ("n", JNum 1);
                                      ("seed", Builder.seed_property s)]) /\
   JSON.member "spec" (body drive) = JSON.stringify spec /\
   JSON.member "n" (body drive) = Some (JSON.TNum 1)).
Proof.
  intros Hg. cbv zeta.
  assert (Hs : truthy (get_field (Builder.result s) "spec") = true)
    by (rewrite <- guarded_spec; assumption).
  destruct (serialize_defined _ Hs) as [t Ht].
  rewrite onSimulatePlay_requests, onSimulateDrive_requests by assumption.
  unfold Builder.simulate_request, Builder.drive_request,
    Builder.simulate_payload, Builder.drive_payload.
  cbn [body url method List.map fst].
  rewrite !(stringify_simulation_payload _ _ _ Ht).
  unfold JSON.stringify. rewrite ?Ht.
  repeat split; try discriminate.
  intros Hn. simpl. rewrite Hn. reflexivity.
Qed.

Lemma simulate_requests_witness :
  truthy (opt_get (Builder.result Example.simulated) "spec") = true /\
  JSON.member "spec" (body (Builder.simulate_request None Example.simulated)) =
  Some (JSON.TObj [("down", JSON.TNum 3); ("distance", JSON.TNum 8)]).
Proof.
  split; [reflexivity |].
  exact (proj1 (proj2 (proj2 (proj2 (proj2 (proj2 (proj1
    (simulate_requests_carry_spec None Example.simulated
       (fun _ => Rejected "offline") (fun _ => Rejected "offline") eq_refl)))))))).
Defined.

(** C9.  In the request of a simulation, single play or drive: when the
    seed state is the empty string the body has the members [spec] and
    [n] and no member [seed]; when the seed state is a number the member
    [seed] is the text of that number, the numeral itself when the
    number is finite. *)
Theorem seed_field_of_simulate_requests
  (env : option string) (s : Builder.State)
  (net_play : Request -> FetchResult SimSummary)
  (net_drive : Request -> FetchResult DriveSummary) :
  truthy (opt_get (Builder.result s) "spec") = true ->
  let play := Builder.simulate_request env s in
  let drive := Builder.drive_request env s in
  (List.map fst (requests (exec Builder.apply net_play (Builder.onSimulatePlay env s) s))
   = [play] /\
   List.map fst (requests (exec Builder.apply net_drive (Builder.onSimulateDrive env s) s))
   = [drive]) /\
  (Builder.seed s = Builder.SeedEmpty ->
   (JSON.member "seed" (body play) = None /\
    JSON.member_names (body play) = ["spec"; "n"]) /\
   (JSON.member "seed" (body drive) = None /\
    JSON.member_names (body drive) = ["spec"; "n"])) /\
  (forall v, Builder.seed s = Builder.SeedNumber v ->
   (JSON.member "seed" (body play) = JSON.stringify (JNum v) /\
    JSON.member "seed" (body drive) = JSON.stringify (JNum v)) /\
   (is_finite v = true ->
    JSON.member "seed" (body play) = Some (JSON.TNum v) /\
    JSON.member "seed" (body drive) = Some (JSON.TNum v))).
Proof.
  intros Hg. cbv zeta.
  assert (Hs : truthy (get_field (Builder.result s) "spec") = true)
    by (rewrite <- guarded_spec; assumption).
  destruct (serialize_defined _ Hs) as [t Ht].
  rewrite onSimulatePlay_requests, onSimulateDrive_requests by assumption.
  unfold Builder.simulate_request, Builder.drive_request,
    Builder.simulate_payload, Builder.drive_payload, Builder.seed_property.
  cbn [body List.map fst].
  rewrite !(stringify_simulation_payload _ _ _ Ht).
  split; [split; reflexivity |]. split.
  - intros ->. repeat split.
  - intros v ->. split.
    + split; reflexivity.
    + intros Hv. simpl. rewrite Hv. split; reflexivity.
Qed.

Lemma seed_field_witness :
  truthy (opt_get (Builder.result Example.unseeded) "spec") = true /\
  Builder.seed Example.unseeded = Builder.SeedEmpty /\
  JSON.member_names (body (Builder.simulate_request None Example.unseeded))
  = ["spec"; "n"].
Proof.
  split; [reflexivity | split; [reflexivity |]].
  exact (proj2 (proj1 (proj1 (proj2
    (seed_field_of_simulate_requests None Example.unseeded
       (fun _ => Rejected "offline") (fun _ => Rejected "offline") eq_refl))
    eq_refl))).
Defined.

(** ** Rendering of the rates *)

(** [nearest_scaled] rounds to the nearest integer, upwards on a tie:
    with [x] the exact value, [-1/2 < n - x * 10^f <= 1/2]. *)
Lemma nearest_scaled_rounds (m : positive) (e : Z) (f : nat) :
  let k := Fixed.nearest_scaled m e f in
  (- Fixed.exact_den e
   < 2 * (k * Fixed.exact_den e - Fixed.exact_num m e * 10 ^ Z.of_nat f)
   <= Fixed.exact_den e)%Z.
Proof.
  cbv zeta. unfold Fixed.nearest_scaled, Fixed.exact_den, Fixed.exact_num.
  destruct (Z.leb_spec 0 e) as [He | He].
  - rewrite (Z.max_r 0 e) by lia. rewrite (Z.max_l 0 (- e)) by lia.
    change (2 ^ 0)%Z with 1%Z. lia.
  - rewrite (Z.max_l 0 e) by lia. rewrite (Z.max_r 0 (- e)) by lia.
    change (2 ^ 0)%Z with 1%Z.
    set (a := (Z.pos m * 10 ^ Z.of_nat f)%Z).
    set (d := (2 ^ (- e))%Z).
    assert (Hd : (0 < d)%Z) by (apply Z.pow_pos_nonneg; lia).
    pose proof (Z.div_mod (2 * a + d) (2 * d) ltac:(lia)) as Hdiv.
    pose proof (Z.mod_pos_bound (2 * a + d) (2 * d) ltac:(lia)) as Hmod.
    set (q := ((2 * a + d) / (2 * d))%Z) in *.
    lia.
Qed.

(** C8.  The cards [TD Rate], [FG Rate] and [Turnover Rate] of a stored
    summary show the rate times 100 with one decimal and a percent sign:
    a rate of 0.231 shows as [23.1%] on each of them, and for any rate
    whose product with 100 is finite and below 10^21 the digits shown
    are those of the integer nearest to ten times the product (the
    larger on a tie), with the point before the last one. *)
Theorem rate_rendering (P : Platform) (s : Builder.State) (d : SimSummary) :
  Builder.sim s = Some d ->
  (Builder.card P s "TD Rate" = Some (Builder.percent P (td_rate d)) /\
   Builder.card P s "FG Rate" = Some (Builder.percent P (fg_rate d)) /\
   Builder.card P s "Turnover Rate" = Some (Builder.percent P (turnover_rate d))) /\
  (td_rate d = 0.231%float -> Builder.card P s "TD Rate" = Some "23.1%") /\
  (fg_rate d = 0.231%float -> Builder.card P s "FG Rate" = Some "23.1%") /\
  (turnover_rate d = 0.231%float -> Builder.card P s "Turnover Rate" = Some "23.1%") /\
  (forall (rate : float) (sg : bool) (m : positive) (e : Z),
     Prim2SF (rate * 100) = S754_finite sg m e ->
     (1e21 <=? abs (rate * 100))%float = false ->
     let k := Fixed.nearest_scaled m e 1 in
     Builder.percent P rate = ((if sg then "-" else "") ++ Fixed.point k 1) ++ "%" /\
     (- Fixed.exact_den e
      < 2 * (k * Fixed.exact_den e - Fixed.exact_num m e * 10)
      <= Fixed.exact_den e)%Z).
Proof.
  intros Hsim.
  assert (Hcards : (Builder.card P s "TD Rate" = Some (Builder.percent P (td_rate d)) /\
                    Builder.card P s "FG Rate" = Some (Builder.percent P (fg_rate d)) /\
                    Builder.card P s "Turnover Rate"
                    = Some (Builder.percent P (turnover_rate d)))).
  { unfold Builder.card, Builder.sim_cards. rewrite Hsim. repeat split. }
  destruct Hcards as (Htd & Hfg & Hto).
  split; [auto |].
  split; [intros Hr; rewrite Htd, Hr; reflexivity |].
  split; [intros Hr; rewrite Hfg, Hr; reflexivity |].
  split; [intros Hr; rewrite Hto, Hr; reflexivity |].
  intros rate sg m e Hsf Hbig. cbv zeta. split.
  - unfold Builder.percent, Fixed.toFixed. rewrite Hsf, Hbig. reflexivity.
  - exact (nearest_scaled_rounds m e 1).
Qed.

Lemma rate_rendering_witness :
  Builder.sim Example.simulated = Some Example.summary /\
  td_rate Example.summary = 0.231%float /\
  Builder.card Example.engine Example.simulated "TD Rate" = Some "23.1%".
Proof.
  split; [reflexivity | split; [reflexivity |]].
  exact (proj1 (proj2 (rate_rendering Example.engine Example.simulated eq_refl)) eq_refl).
Defined.

(** ** Team codes *)

Ltac calls_step :=
  match goal with
  | |- calls_all _ (try_finally _ _) => apply calls_all_try_finally
  | |- calls_all _ (try_catch _ _) => apply calls_all_try_catch; [| intros ?]
  | |- calls_all _ (bind _ _) => apply calls_all_bind; [| intros ?]
  | |- calls_all _ (if ?b then _ else _) => destruct b
  | |- calls_all _ (match ?x with _ => _ end) => destruct x
  | |- forall _, _ => intros ?
  | |- _ /\ _ => split
  | |- Builder.keeps_codes _ => exact I
  | |- ParsePage.keeps_codes _ => exact I
  | |- True => exact I
  | |- _ => progress simpl
  end.

Lemma onParse_keeps_codes (P : Platform) (env : option string) (s : Builder.State) :
  calls_all Builder.keeps_codes (Builder.onParse P env s).
Proof.
  unfold Builder.onParse, Builder.check_ok, Builder.get, Builder.call_join, json.
  repeat calls_step.
Qed.

Lemma onSimulatePlay_keeps_codes (env : option string) (s : Builder.State) :
  calls_all Builder.keeps_codes (Builder.onSimulatePlay env s).
Proof.
  unfold Builder.onSimulatePlay, Builder.check_ok, json.
  repeat calls_step.
Qed.

Lemma onSimulateDrive_keeps_codes (env : option string) (s : Builder.State) :
  calls_all Builder.keeps_codes (Builder.onSimulateDrive env s).
Proof.
  unfold Builder.onSimulateDrive, Builder.check_ok, json.
  repeat calls_step.
Qed.

Lemma onSubmit_keeps_codes (P : Platform) (env : option string) (s : ParsePage.State) :
  calls_all ParsePage.keeps_codes (ParsePage.onSubmit P env s).
Proof.
  unfold ParsePage.onSubmit, ParsePage.check_ok, ParsePage.get, ParsePage.call_join, json.
  repeat calls_step.
Qed.

(** A setter call other than [setOffense] and [setDefense] leaves the
    codes as they are. *)
Lemma keeps_codes_apply (o d : string) (a : Builder.Action) (s : Builder.State) :
  Builder.keeps_codes a ->
  Builder.offense s = o /\ Builder.defense s = d ->
  Builder.offense (Builder.apply a s) = o /\ Builder.defense (Builder.apply a s) = d.
Proof. destruct a; simpl; intros Ha Hs; try contradiction; exact Hs. Qed.

Lemma parse_page_keeps_codes_apply (o d : string)
  (a : ParsePage.Action) (s : ParsePage.State) :
  ParsePage.keeps_codes a ->
  ParsePage.offense s = o /\ ParsePage.defense s = d ->
  ParsePage.offense (ParsePage.apply a s) = o /\
  ParsePage.defense (ParsePage.apply a s) = d.
Proof. destruct a; simpl; intros Ha Hs; try contradiction; exact Hs. Qed.

(** One event: the codes follow what was entered last. *)
Lemma step_codes (P : Platform) (env : option string)
  (s : Builder.State) (ev : Builder.Event) (o d : string) (so sd : option string) :
  Builder.offense s = Builder.code_of P o so /\
  Builder.defense s = Builder.code_of P d sd ->
  Builder.offense (Builder.step P env s ev)
  = Builder.code_of P o (Builder.entered_offense [ev] so) /\
  Builder.defense (Builder.step P env s ev)
  = Builder.code_of P d (Builder.entered_defense [ev] sd).
Proof.
  intros Hs.
  destruct ev as [v | v | v | v | v | a | a | a];
    cbn [Builder.step Builder.entered_offense Builder.entered_defense fold_left].
  - exact Hs.
  - split; [reflexivity | apply Hs].
  - split; [apply Hs | reflexivity].
  - exact Hs.
  - exact Hs.
  - exact (calls_all_final Builder.apply (fun _ => a) Builder.keeps_codes
             (fun s' => Builder.offense s' = Builder.code_of P o so /\
                        Builder.defense s' = Builder.code_of P d sd) _ s
             (@keeps_codes_apply _ _) (onParse_keeps_codes P env s) Hs).
  - exact (calls_all_final Builder.apply (fun _ => a) Builder.keeps_codes
             (fun s' => Builder.offense s' = Builder.code_of P o so /\
                        Builder.defense s' = Builder.code_of P d sd) _ s
             (@keeps_codes_apply _ _) (onSimulatePlay_keeps_codes env s) Hs).
  - exact (calls_all_final Builder.apply (fun _ => a) Builder.keeps_codes
             (fun s' => Builder.offense s' = Builder.code_of P o so /\
                        Builder.defense s' = Builder.code_of P d sd) _ s
             (@keeps_codes_apply _ _) (onSimulateDrive_keeps_codes env s) Hs).
Qed.

Lemma steps_codes (P : Platform) (env : option string)
  (evs : list Builder.Event) (s : Builder.State) (o d : string)
  (so sd : option string) :
  Builder.offense s = Builder.code_of P o so /\
  Builder.defense s = Builder.code_of P d sd ->
  Builder.offense (Builder.steps P env s evs)
  = Builder.code_of P o (Builder.entered_offense evs so) /\
  Builder.defense (Builder.steps P env s evs)
  = Builder.code_of P d (Builder.entered_defense evs sd).
Proof.
  revert s so sd. induction evs as [| ev evs IH]; intros s so sd Hs.
  - exact Hs.
  - exact (IH _ _ _ (step_codes P env s ev o d so sd Hs)).
Qed.

Lemma parse_page_step_codes (P : Platform) (env : option string)
  (s : ParsePage.State) (ev : ParsePage.Event) (o d : string)
  (so sd : option string) :
  ParsePage.offense s = ParsePage.code_of P o so /\
  ParsePage.defense s = ParsePage.code_of P d sd ->
  ParsePage.offense (ParsePage.step P env s ev)
  = ParsePage.code_of P o (ParsePage.entered_offense [ev] so) /\
  ParsePage.defense (ParsePage.step P env s ev)
  = ParsePage.code_of P d (ParsePage.entered_defense [ev] sd).
Proof.
  intros Hs.
  destruct ev as [v | v | v | a];
    cbn [ParsePage.step ParsePage.entered_offense ParsePage.entered_defense fold_left].
  - exact Hs.
  - split; [reflexivity | apply Hs].
  - split; [apply Hs | reflexivity].
  - exact (calls_all_final ParsePage.apply (fun _ => a) ParsePage.keeps_codes
             (fun s' => ParsePage.offense s' = ParsePage.code_of P o so /\
                        ParsePage.defense s' = ParsePage.code_of P d sd) _ s
             (@parse_page_keeps_codes_apply _ _) (onSubmit_keeps_codes P env s) Hs).
Qed.

Lemma parse_page_steps_codes (P : Platform) (env : option string)
  (evs : list ParsePage.Event) (s : ParsePage.State) (o d : string)
  (so sd : option string) :
  ParsePage.offense s = ParsePage.code_of P o so /\
  ParsePage.defense s = ParsePage.code_of P d sd ->
  ParsePage.offense (ParsePage.steps P env s evs)
  = ParsePage.code_of P o (ParsePage.entered_offense evs so) /\
  ParsePage.defense (ParsePage.steps P env s evs)
  = ParsePage.code_of P d (ParsePage.entered_defense evs sd).
Proof.
  revert s so sd. induction evs as [| ev evs IH]; intros s so sd Hs.
  - exact Hs.
  - exact (IH _ _ _ (parse_page_step_codes P env s ev o d so sd Hs)).
Qed.

(** C10.  The stored team codes are always the upper-case form of what
    was entered.  From any state, after any run of edits, parses and
    simulations, the offense is the engine's [toUpperCase] of the value
    entered last in the offense input, or what it was before when none
    was entered, and likewise the defense; nothing but a change of its
    input changes a code, and the first render starts from [DAL] and
    [PHI].  The body of the parse request issued afterwards carries
    exactly these codes.  The same holds on the parse-only page. *)
Theorem team_codes_uppercase
  (P : Platform) (env : option string)
  (s : Builder.State) (evs : list Builder.Event)
  (s0 : ParsePage.State) (evs0 : list ParsePage.Event)
  (net net0 : Request -> FetchResult jsval) (seed0 : float) :
  (let after := Builder.steps P env s evs in
   let offense :=
     match Builder.entered_offense evs None with
     | Some v => toUpperCase P v
     | None => Builder.offense s
     end in
   let defense :=
     match Builder.entered_defense evs None with
     | Some v => toUpperCase P v
     | None => Builder.defense s
     end in
   Builder.offense after = offense /\
   Builder.defense after = defense /\
   List.map (fun q => body (fst q))
            (requests (exec Builder.apply net (Builder.onParse P env after) after)) =
   [Some (JSON.TObj [("text", JSON.TStr (Builder.text after));
                     ("offense", JSON.TStr offense);
                     ("defense", JSON.TStr defense)])]) /\
  (let after := ParsePage.steps P env s0 evs0 in
   let offense :=
     match ParsePage.entered_offense evs0 None with
     | Some v => toUpperCase P v
     | None => ParsePage.offense s0
     end in
   let defense :=
     match ParsePage.entered_defense evs0 None with
     | Some v => toUpperCase P v
     | None => ParsePage.defense s0
     end in
   ParsePage.offense after = offense /\
   ParsePage.defense after = defense /\
   List.map (fun q => body (fst q))
            (requests (exec ParsePage.apply net0 (ParsePage.onSubmit P env after) after)) =
   [Some (JSON.TObj [("text", JSON.TStr (ParsePage.text after));
                     ("offense", JSON.TStr offense);
                     ("defense", JSON.TStr defense)])]) /\
  (Builder.offense (Builder.init seed0) = "DAL" /\
   Builder.defense (Builder.init seed0) = "PHI" /\
   ParsePage.offense ParsePage.init = "DAL" /\
   ParsePage.defense ParsePage.init = "PHI").
Proof.
  cbv zeta. split; [| split].
  - destruct (steps_codes P env evs s (Builder.offense s) (Builder.defense s) None None)
      as [Ho Hd]; [split; reflexivity |].
    unfold Builder.code_of in Ho, Hd.
    rewrite onParse_requests. cbn [List.map fst body Builder.parse_request].
    unfold JSON.stringify. cbn [JSON.serialize].
    rewrite <- Ho, <- Hd. repeat split.
  - destruct (parse_page_steps_codes P env evs0 s0
                (ParsePage.offense s0) (ParsePage.defense s0) None None)
      as [Ho Hd]; [split; reflexivity |].
    unfold ParsePage.code_of in Ho, Hd.
    rewrite onSubmit_requests. cbn [List.map fst body ParsePage.parse_request].
    unfold JSON.stringify. cbn [JSON.serialize].
    rewrite <- Ho, <- Hd. repeat split.
  - repeat split.
Qed.

(** From the first render: after a parse, [kc] entered as offense, a
    failed simulation and [sf] entered as defense, the parse request
    carries [KC] and [SF]. *)
Lemma team_codes_witness :
  List.map (fun q => body (fst q))
    (requests
       (exec Builder.apply (fun _ => Rejected "offline")
          (Builder.onParse Example.engine None
             (Builder.steps Example.engine None (Builder.init 7)
                [Builder.SubmitParse (Resolved (mkResponse 200 (inr Example.parsed_play)));
                 Builder.ChangeOffense "kc";
                 Builder.ClickSimulatePlay (Rejected "offline");
                 Builder.ChangeDefense "sf"]))
          (Builder.steps Example.engine None (Builder.init 7)
             [Builder.SubmitParse (Resolved (mkResponse 200 (inr Example.parsed_play)));
              Builder.ChangeOffense "kc";
              Builder.ClickSimulatePlay (Rejected "offline");
              Builder.ChangeDefense "sf"])))
  = [Some (JSON.TObj
             [("text",
               JSON.TStr "3rd & 8 on DAL 42, 2:05 Q4, down 3, deep middle pass, 11 personnel");
              ("offense", JSON.TStr "KC");
              ("defense", JSON.TStr "SF")])].
Proof.
  exact (proj2 (proj2 (proj1
    (team_codes_uppercase Example.engine None (Builder.init 7)
       [Builder.SubmitParse (Resolved (mkResponse 200 (inr Example.parsed_play)));
        Builder.ChangeOffense "kc";
        Builder.ClickSimulatePlay (Rejected "offline");
        Builder.ChangeDefense "sf"]
       ParsePage.init [] (fun _ => Rejected "offline") (fun _ => Rejected "offline") 7)))).
Defined.

(* ================================================================= *)
(** * Further properties of the pages *)

(** ** Where the handlers leave the state, on every answer *)

Lemma onParse_run (P : Platform) (env : option string) (s : Builder.State)
  (net : Request -> FetchResult jsval) :
  exec Builder.apply net (Builder.onParse P env s) s =
  mkRun (Builder.parse_settled P s (net (Builder.parse_request env s)))
        [(Builder.parse_request env s, Builder.parse_pending s)]
        (inr tt).
Proof.
  unfold Builder.onParse, Builder.parse_settled. simpl.
  fold (Builder.parse_pending s).
  destruct (net (Builder.parse_request env s)) as [m | [st [m | data]]];
    unfold Builder.check_ok, payload, thrown, ok, json; simpl.
  - reflexivity.
  - destruct ((200 <=? st)%N && (st <=? 299)%N); reflexivity.
  - destruct ((200 <=? st)%N && (st <=? 299)%N); simpl; [| reflexivity].
    unfold Builder.warning_of_payload.
    destruct data as [| | b | x | t | items | props]; simpl; try reflexivity.
    destruct (lookup "warnings" props) as [w |]; simpl; [| reflexivity].
    destruct (length_truthy w) eqn:Hw; simpl; [| reflexivity].
    destruct w as [| | b | x | t | items | props']; simpl; try reflexivity.
    destruct (Array_join P items " | "); reflexivity.
Qed.

Lemma onSubmit_run (P : Platform) (env : option string) (s : ParsePage.State)
  (net : Request -> FetchResult jsval) :
  exec ParsePage.apply net (ParsePage.onSubmit P env s) s =
  mkRun (ParsePage.submit_settled P s (net (ParsePage.parse_request env s)))
        [(ParsePage.parse_request env s, ParsePage.submit_pending s)]
        (inr tt).
Proof.
  unfold ParsePage.onSubmit, ParsePage.submit_settled. simpl.
  fold (ParsePage.submit_pending s).
  destruct (net (ParsePage.parse_request env s)) as [m | [st [m | data]]];
    unfold ParsePage.check_ok, payload, thrown, ok, json; simpl.
  - reflexivity.
  - destruct ((200 <=? st)%N && (st <=? 299)%N); reflexivity.
  - destruct ((200 <=? st)%N && (st <=? 299)%N); simpl; [| reflexivity].
    unfold ParsePage.warning_of_payload.
    destruct data as [| | b | x | t | items | props]; simpl; try reflexivity.
    destruct (lookup "warnings" props) as [w |]; simpl; [| reflexivity].
    destruct (length_truthy w) eqn:Hw; simpl; [| reflexivity].
    destruct w as [| | b | x | t | items | props']; simpl; try reflexivity.
    destruct (Array_join P items " | "); reflexivity.
Qed.

Lemma onSimulatePlay_run (env : option string) (s : Builder.State)
  (net : Request -> FetchResult SimSummary) :
  exec Builder.apply net (Builder.onSimulatePlay env s) s =
  if truthy (opt_get (Builder.result s) "spec")
  then mkRun (Builder.play_settled s (net (Builder.simulate_request env s)))
             [(Builder.simulate_request env s, Builder.play_pending s)]
             (inr tt)
  else mkRun s [] (inr tt).
Proof.
  unfold Builder.onSimulatePlay, Builder.play_settled.
  destruct (truthy (opt_get (Builder.result s) "spec")); simpl; [| reflexivity].
  fold (Builder.play_pending s).
  destruct (net (Builder.simulate_request env s)) as [m | [st [m | data]]];
    unfold Builder.check_ok, payload, thrown, ok, json; simpl.
  - reflexivity.
  - destruct ((200 <=? st)%N && (st <=? 299)%N); reflexivity.
  - destruct ((200 <=? st)%N && (st <=? 299)%N); reflexivity.
Qed.

Lemma onSimulateDrive_run (env : option string) (s : Builder.State)
  (net : Request -> FetchResult DriveSummary) :
  exec Builder.apply net (Builder.onSimulateDrive env s) s =
  if truthy (opt_get (Builder.result s) "spec")
  then mkRun (Builder.drive_settled s (net (Builder.drive_request env s)))
             [(Builder.drive_request env s, Builder.drive_pending s)]
             (inr tt)
  else mkRun s [] (inr tt).
Proof.
  unfold Builder.onSimulateDrive, Builder.drive_settled.
  destruct (truthy (opt_get (Builder.result s) "spec")); simpl; [| reflexivity].
  fold (Builder.drive_pending s).
  destruct (net (Builder.drive_request env s)) as [m | [st [m | data]]];
    unfold Builder.check_ok, payload, thrown, ok, json; simpl.
  - reflexivity.
  - destruct ((200 <=? st)%N && (st <=? 299)%N); reflexivity.
  - destruct ((200 <=? st)%N && (st <=? 299)%N); reflexivity.
Qed.

Lemma HealthPage_run (env : option string) (net : Request -> FetchResult jsval) :
  exec (fun (_ : unit) (st : unit) => st) net (Health.HealthPage env) tt =
  mkRun tt [(Health.health_request env, tt)]
        (match net (Health.health_request env) with
         | Rejected m => inl m
         | Resolved res =>
             match json_body res with
             | inl m => inl m
             | inr data =>
                 inr (Health.mkView (JSON.stringify data)
                                    ("From: " ++ Health.base env ++ "/health"))
             end
         end).
Proof.
  unfold Health.HealthPage. simpl.
  destruct (net (Health.health_request env)) as [m | [st [m | data]]]; reflexivity.
Qed.

(** ** Strings *)

Lemma or_else_not_empty (m d : string) : d <> "" -> or_else m d <> "".
Proof.
  intros Hd. unfold or_else. destruct (String.eqb_spec m ""); assumption.
Qed.

Lemma when_text_or_else (m d : string) :
  d <> "" -> when_text (Some (or_else m d)) = Some (or_else m d).
Proof.
  intros Hd. unfold when_text.
  destruct (String.eqb_spec (or_else m d) "") as [E | E]; [| reflexivity].
  exfalso. exact (or_else_not_empty m Hd E).
Qed.


(* ================================================================= *)
(** * Further stated properties *)

(** ** A parse that succeeds *)



(** X2.  A payload is stored as the parse result even when reading its
    warnings fails: a [null] payload, or a payload whose [warnings] is a
    non-empty string (which has a length and no [join]), leaves the
    payload as the result and, as the warning, the message of the
    engine's TypeError ([Request failed] if that message is empty). *)
Theorem parse_payload_with_unreadable_warnings
  (P : Platform) (env : option string) (s : Builder.State)
  (res : Response jsval) (data : jsval) (c : ascii) (t : string) :
  ok res = true -> json_body res = inr data ->
  data = JNull \/ get_field data "warnings" = JStr (String c t) ->
  let after := final (exec Builder.apply (fun _ => Resolved res)
                           (Builder.onParse P env s) s) in
  Builder.result after = data /\
  Builder.loading after = false /\
  Builder.warning after =
  Some (or_else (match data with
                 | JNull => msg_property_of_nullish P JNull "warnings"
                 | _ => msg_not_a_function P "join"
                 end) "Request failed").
Proof.
  intros Hok Hbody Hdata. cbv zeta. rewrite onParse_run.
  unfold Builder.parse_settled, payload, thrown. cbn [final].
  rewrite Hok, Hbody. cbn [Builder.result Builder.loading Builder.warning].
  split; [reflexivity |]. split; [reflexivity |].
  unfold Builder.warning_of_payload.
  destruct Hdata as [-> | Hw]; [reflexivity |].
  destruct data; try discriminate Hw. rewrite Hw. reflexivity.
Qed.

Lemma parse_payload_with_unreadable_warnings_witness :
  ok (mkResponse 200 (inr (JObj [("warnings", JStr "slow")]))) = true /\
  Builder.warning
    (final (exec Builder.apply
                 (fun _ => Resolved (mkResponse 200 (inr (JObj [("warnings", JStr "slow")]))))
                 (Builder.onParse Example.engine None (Builder.init 7))
                 (Builder.init 7)))
  = Some "data.warnings.join is not a function".
Proof.
  split; [reflexivity |].
  exact (proj2 (proj2
    (parse_payload_with_unreadable_warnings Example.engine None (Builder.init 7)
       (mkResponse 200 (inr (JObj [("warnings", JStr "slow")])))
       eq_refl eq_refl (or_intror eq_refl)))).
Defined.

(** ** Errors *)

(** X3.  No handler of the builder pages lets an error escape: on every
    answer of the network, the runs of parse, of both simulations and
    of the parse-only submit end normally. *)
Theorem handlers_always_complete
  (P : Platform) (env : option string) (s : Builder.State) (s0 : ParsePage.State)
  (net : Request -> FetchResult jsval)
  (net_play : Request -> FetchResult SimSummary)
  (net_drive : Request -> FetchResult DriveSummary) :
  completion (exec Builder.apply net (Builder.onParse P env s) s) = inr tt /\
  completion (exec Builder.apply net_play (Builder.onSimulatePlay env s) s) = inr tt /\
  completion (exec Builder.apply net_drive (Builder.onSimulateDrive env s) s) = inr tt /\
  completion (exec ParsePage.apply net (ParsePage.onSubmit P env s0) s0) = inr tt.
Proof.
  rewrite onParse_run, onSimulatePlay_run, onSimulateDrive_run, onSubmit_run.
  destruct (truthy (opt_get (Builder.result s) "spec")); repeat split.
Qed.

(** X4.  The health page issues one GET to [/health] under its base,
    without a body and with [cache: "no-store"].  It never looks at the
    status: whatever the status, a JSON payload is shown (with the line
    naming the address), while a rejected request or a body that is no
    JSON makes the page fail with that error. *)
Theorem health_page_outcomes (env : option string)
  (net : Request -> FetchResult jsval) :
  let run := exec (fun (_ : unit) (st : unit) => st) net (Health.HealthPage env) tt in
  List.map fst (requests run) =
  [mkRequest (template env ++ "/health") GET [] None (Some "no-store")] /\
  completion run =
  match net (Health.health_request env) with
  | Rejected m => inl m
  | Resolved res =>
      match json_body res with
      | inl m => inl m
      | inr data =>
          inr (Health.mkView (JSON.stringify data)
                             ("From: " ++ template env ++ "/health"))
      end
  end.
Proof.
  cbv zeta. rewrite HealthPage_run. split; reflexivity.
Qed.

(** X5.  Whenever the request of a handler fails in any way (the
    network rejects it, the status is outside 200..299, or the body is
    no JSON), the warning box is shown afterwards with a non-empty text:
    the message of the error, or the handler's own fallback when that
    message is empty. *)
Theorem failure_shows_warning
  (P : Platform) (env : option string) (s : Builder.State) (s0 : ParsePage.State)
  (o : FetchResult jsval) (o_play : FetchResult SimSummary)
  (o_drive : FetchResult DriveSummary) (m : string) :
  (thrown o = Some m ->
   Builder.warning_box
     (final (exec Builder.apply (fun _ => o) (Builder.onParse P env s) s))
   = Some (if m =? "" then "Request failed" else m)) /\
  (thrown o_play = Some m -> truthy (opt_get (Builder.result s) "spec") = true ->
   Builder.warning_box
     (final (exec Builder.apply (fun _ => o_play) (Builder.onSimulatePlay env s) s))
   = Some (if m =? "" then "Sim request failed" else m)) /\
  (thrown o_drive = Some m -> truthy (opt_get (Builder.result s) "spec") = true ->
   Builder.warning_box
     (final (exec Builder.apply (fun _ => o_drive) (Builder.onSimulateDrive env s) s))
   = Some (if m =? "" then "Drive sim failed" else m)) /\
  (thrown o = Some m ->
   ParsePage.warning_box
     (final (exec ParsePage.apply (fun _ => o) (ParsePage.onSubmit P env s0) s0))
   = Some (if m =? "" then "Request failed" else m)).
Proof.
  rewrite onParse_run, onSimulatePlay_run, onSimulateDrive_run, onSubmit_run.
  unfold Builder.parse_settled, Builder.play_settled, Builder.drive_settled,
    ParsePage.submit_settled, Builder.warning_box, ParsePage.warning_box.
  split; [| split; [| split]].
  - intros Ho. cbn [final Builder.warning]. rewrite Ho.
    apply when_text_or_else; discriminate.
  - intros Ho Hg. rewrite Hg. cbn [final Builder.warning]. rewrite Ho.
    apply when_text_or_else; discriminate.
  - intros Ho Hg. rewrite Hg. cbn [final Builder.warning]. rewrite Ho.
    apply when_text_or_else; discriminate.
  - intros Ho. cbn [final ParsePage.warning]. rewrite Ho.
    apply when_text_or_else; discriminate.
Qed.

Lemma failure_shows_warning_witness :
  thrown (Rejected "" : FetchResult SimSummary) = Some "" /\
  truthy (opt_get (Builder.result Example.simulated) "spec") = true /\
  Builder.warning_box
    (final (exec Builder.apply (fun _ => Rejected "")
                 (Builder.onSimulatePlay None Example.simulated) Example.simulated))
  = Some "Sim request failed".
Proof.
  split; [reflexivity |]. split; [reflexivity |].
  exact (proj1 (proj2
    (failure_shows_warning Example.engine None Example.simulated ParsePage.init
       (Rejected "") (Rejected "") (Rejected "") "")) eq_refl eq_refl).
Defined.

(** ** Simulations that succeed *)

(** X6.  A simulation whose guard lets it run and whose request is
    answered with a status in 200..299 and a readable body stores that
    body as its summary, replacing whatever summary of that kind was
    stored, clears the warning and resets the loading flag; the parse
    result, the inputs and the summary of the other kind stay as they
    were. *)
Theorem simulation_success_stores_summary
  (env : option string) (s : Builder.State)
  (o_play : FetchResult SimSummary) (o_drive : FetchResult DriveSummary)
  (d_play : SimSummary) (d_drive : DriveSummary) :
  truthy (opt_get (Builder.result s) "spec") = true ->
  (payload o_play = Some d_play ->
   final (exec Builder.apply (fun _ => o_play) (Builder.onSimulatePlay env s) s) =
   Builder.mkState (Builder.text s) (Builder.offense s) (Builder.defense s)
                   (Builder.result s) None false (Builder.n s) (Builder.seed s)
                   (Some d_play) (Builder.drive s)) /\
  (payload o_drive = Some d_drive ->
   final (exec Builder.apply (fun _ => o_drive) (Builder.onSimulateDrive env s) s) =
   Builder.mkState (Builder.text s) (Builder.offense s) (Builder.defense s)
                   (Builder.result s) None false (Builder.n s) (Builder.seed s)
                   (Builder.sim s) (Some d_drive)).
Proof.
  intros Hg. rewrite onSimulatePlay_run, onSimulateDrive_run, Hg.
  unfold Builder.play_settled, Builder.drive_settled. cbn [final].
  split; intros Hp; rewrite Hp.
  - destruct o_play as [m | res]; [discriminate |].
    unfold payload, thrown in *. destruct (ok res); [| discriminate].
    destruct (json_body res); [discriminate | reflexivity].
  - destruct o_drive as [m | res]; [discriminate |].
    unfold payload, thrown in *. destruct (ok res); [| discriminate].
    destruct (json_body res); [discriminate | reflexivity].
Qed.

Lemma simulation_success_witness :
  truthy (opt_get (Builder.result Example.simulated) "spec") = true /\
  Builder.drive
    (final (exec Builder.apply
                 (fun _ => Resolved (mkResponse 200 (inr Example.touchdown_drive)))
                 (Builder.onSimulateDrive None Example.simulated) Example.simulated))
  = Some Example.touchdown_drive.
Proof.
  split; [reflexivity |].
  exact (f_equal Builder.drive (proj2
    (simulation_success_stores_summary None Example.simulated
       (Rejected "offline") (Resolved (mkResponse 200 (inr Example.touchdown_drive)))
       Example.summary Example.touchdown_drive eq_refl) eq_refl)).
Defined.

(** ** One operation after another *)

(** X7.  After a parse that succeeds with a payload whose [spec] is
    truthy, from any state, the next single-play simulation and the next
    drive simulation each issue one request whose [spec] is the one of
    that payload, with the sample count and the seed the parse left
    untouched. *)
Theorem parse_then_simulate
  (P : Platform) (env : option string) (s : Builder.State)
  (res : Response jsval) (data : jsval)
  (net_play : Request -> FetchResult SimSummary)
  (net_drive : Request -> FetchResult DriveSummary) :
  ok res = true -> json_body res = inr data ->
  truthy (opt_get data "spec") = true ->
  let s' := Builder.step P env s (Builder.SubmitParse (Resolved res)) in
  List.map fst (requests (exec Builder.apply net_play (Builder.onSimulatePlay env s') s'))
  = [mkRequest (Builder.API env ++ "/simulate") POST
               [("Content-Type", "application/json")]
               (JSON.stringify (JObj [("spec", get_field data "spec");
                                      ("n", JNum (Builder.n s));
                                      ("seed", Builder.seed_property s)]))
               None] /\
  List.map fst (requests (exec Builder.apply net_drive (Builder.onSimulateDrive env s') s'))
  = [mkRequest (Builder.API env ++ "/simulate-drive") POST
               [("Content-Type", "application/json")]
               (JSON.stringify (JObj [("spec", get_field data "spec");
                                      ("n", JNum 1);
                                      ("seed", Builder.seed_property s)]))
               None].
Proof.
  intros Hok Hbody Hspec. cbv zeta. cbn [Builder.step].
  rewrite onParse_run. cbn [final].
  rewrite onSimulatePlay_run, onSimulateDrive_run.
  unfold Builder.parse_settled, payload. rewrite Hok, Hbody.
  cbn [Builder.result]. rewrite Hspec. split; reflexivity.
Qed.

Lemma parse_then_simulate_witness :
  ok (mkResponse 201 (inr Example.parsed_play)) = true /\
  truthy (opt_get Example.parsed_play "spec") = true /\
  List.map (fun q => JSON.member "spec" (body (fst q)))
    (requests
       (exec Builder.apply (fun _ => Rejected "offline")
          (Builder.onSimulatePlay None
             (Builder.step Example.engine None (Builder.init 7)
                (Builder.SubmitParse (Resolved (mkResponse 201 (inr Example.parsed_play))))))
          (Builder.step Example.engine None (Builder.init 7)
             (Builder.SubmitParse (Resolved (mkResponse 201 (inr Example.parsed_play)))))))
  = [Some (JSON.TObj [("down", JSON.TNum 3); ("distance", JSON.TNum 8)])].
Proof.
  split; [reflexivity |]. split; [reflexivity |].
  pose proof (proj1
    (parse_then_simulate Example.engine None (Builder.init 7)
       (mkResponse 201 (inr Example.parsed_play))
       (fun _ => Rejected "offline") (fun _ => Rejected "offline")
       eq_refl eq_refl eq_refl)) as H.
  cbv zeta in H.
  rewrite <- (List.map_map fst (fun r => JSON.member "spec" (body r))).
  rewrite H. reflexivity.
Defined.

(** X8.  After a parse whose request fails in any way, from any state,
    even one that held a parse result, the controls of the simulations
    are not rendered and both simulation handlers do nothing: no request,
    no change of state. *)
Theorem failed_parse_disables_simulation
  (P : Platform) (env : option string) (s : Builder.State)
  (o : FetchResult jsval) (m : string)
  (net_play : Request -> FetchResult SimSummary)
  (net_drive : Request -> FetchResult DriveSummary) :
  thrown o = Some m ->
  let s' := Builder.step P env s (Builder.SubmitParse o) in
  Builder.result_panel s' = Nothing /\
  exec Builder.apply net_play (Builder.onSimulatePlay env s') s' = mkRun s' [] (inr tt) /\
  exec Builder.apply net_drive (Builder.onSimulateDrive env s') s' = mkRun s' [] (inr tt).
Proof.
  intros Ho. cbv zeta. cbn [Builder.step]. rewrite onParse_run. cbn [final].
  rewrite onSimulatePlay_run, onSimulateDrive_run.
  assert (Hr : Builder.result (Builder.parse_settled P s o) = JNull).
  { unfold Builder.parse_settled, payload, thrown in *. cbn [Builder.result].
    destruct o as [e | res]; [reflexivity |].
    destruct (ok res); [| reflexivity].
    destruct (json_body res); [reflexivity | discriminate]. }
  unfold Builder.result_panel. rewrite Hr. repeat split.
Qed.

Lemma failed_parse_disables_simulation_witness :
  thrown (@Example.not_found jsval) = Some "HTTP 404" /\
  requests
    (exec Builder.apply (fun _ => Resolved (mkResponse 200 (inr Example.summary)))
       (Builder.onSimulatePlay None
          (Builder.step Example.engine None Example.simulated
             (Builder.SubmitParse Example.not_found)))
       (Builder.step Example.engine None Example.simulated
          (Builder.SubmitParse Example.not_found)))
  = [].
Proof.
  split; [reflexivity |].
  exact (f_equal (@requests _ _)
    (proj1 (proj2
      (failed_parse_disables_simulation Example.engine None Example.simulated
         Example.not_found
         (fun _ => Resolved (mkResponse 200 (inr Example.summary)))
         (fun _ => Rejected "offline") eq_refl)))).
Defined.

(** ** What holds in every state the pages reach *)

Lemma step_keeps_idle (P : Platform) (env : option string)
  (s : Builder.State) (ev : Builder.Event) :
  Builder.loading s = false -> Builder.loading (Builder.step P env s ev) = false.
Proof.
  intros Hs. destruct ev as [v | v | v | v | v | o | o | o]; cbn [Builder.step];
    try exact Hs.
  - rewrite onParse_run. reflexivity.
  - rewrite onSimulatePlay_run.
    destruct (truthy (opt_get (Builder.result s) "spec")); [reflexivity | exact Hs].
  - rewrite onSimulateDrive_run.
    destruct (truthy (opt_get (Builder.result s) "spec")); [reflexivity | exact Hs].
Qed.

Lemma parse_page_step_keeps_idle (P : Platform) (env : option string)
  (s : ParsePage.State) (ev : ParsePage.Event) :
  ParsePage.loading s = false -> ParsePage.loading (ParsePage.step P env s ev) = false.
Proof.
  intros Hs. destruct ev as [v | v | v | o]; cbn [ParsePage.step]; try exact Hs.
  rewrite onSubmit_run. reflexivity.
Qed.

(** X9.  Between operations the pages are never left loading: in every
    state reached from the first render by any sequence of edits and of
    operations run to their end, whatever the network answered, the
    loading flag is false. *)
Theorem idle_pages_are_not_loading
  (P : Platform) (env : option string) (seed0 : float)
  (evs : list Builder.Event) (evs0 : list ParsePage.Event) :
  Builder.loading (Builder.steps P env (Builder.init seed0) evs) = false /\
  ParsePage.loading (ParsePage.steps P env ParsePage.init evs0) = false.
Proof.
  split.
  - assert (H : forall s, Builder.loading s = false ->
                          Builder.loading (Builder.steps P env s evs) = false).
    { induction evs as [| ev evs IH]; intros s Hs; simpl; [exact Hs |].
      apply IH, step_keeps_idle, Hs. }
    apply H. reflexivity.
  - assert (H : forall s, ParsePage.loading s = false ->
                          ParsePage.loading (ParsePage.steps P env s evs0) = false).
    { induction evs0 as [| ev evs0 IH]; intros s Hs; simpl; [exact Hs |].
      apply IH, parse_page_step_keeps_idle, Hs. }
    apply H. reflexivity.
Qed.

Lemma step_keeps_summaries_backed (P : Platform) (env : option string)
  (s : Builder.State) (ev : Builder.Event) :
  Builder.summaries_backed s -> Builder.summaries_backed (Builder.step P env s ev).
Proof.
  intros Hs. destruct ev as [v | v | v | v | v | o | o | o]; cbn [Builder.step];
    try exact Hs.
  - rewrite onParse_run. intros [H | H]; exfalso; apply H; reflexivity.
  - rewrite onSimulatePlay_run.
    destruct (truthy (opt_get (Builder.result s) "spec")) eqn:Hg; [| exact Hs].
    intros _. exact Hg.
  - rewrite onSimulateDrive_run.
    destruct (truthy (opt_get (Builder.result s) "spec")) eqn:Hg; [| exact Hs].
    intros _. exact Hg.
Qed.

(** X10.  A summary is never shown without the parse result it belongs
    to: in every state reached from the first render, if a simulation
    summary or a drive summary is stored, then a parse result with a
    truthy [spec] is stored too. *)
Theorem summaries_need_a_spec
  (P : Platform) (env : option string) (seed0 : float) (evs : list Builder.Event) :
  let s := Builder.steps P env (Builder.init seed0) evs in
  Builder.sim s <> None \/ Builder.drive s <> None ->
  truthy (opt_get (Builder.result s) "spec") = true.
Proof.
  cbv zeta.
  assert (H : forall s, Builder.summaries_backed s ->
                        Builder.summaries_backed (Builder.steps P env s evs)).
  { induction evs as [| ev evs IH]; intros s Hs; simpl; [exact Hs |].
    apply IH, step_keeps_summaries_backed, Hs. }
  apply H. intros [Hn | Hn]; exfalso; apply Hn; reflexivity.
Qed.

Lemma summaries_need_a_spec_witness :
  Builder.sim
    (Builder.steps Example.engine None (Builder.init 7)
       [Builder.SubmitParse (Resolved (mkResponse 200 (inr Example.parsed_play)));
        Builder.ChangeOffense "kc";
        Builder.ClickSimulatePlay (Resolved (mkResponse 200 (inr Example.summary)))])
  <> None /\
  truthy
    (opt_get
       (Builder.result
          (Builder.steps Example.engine None (Builder.init 7)
             [Builder.SubmitParse (Resolved (mkResponse 200 (inr Example.parsed_play)));
              Builder.ChangeOffense "kc";
              Builder.ClickSimulatePlay (Resolved (mkResponse 200 (inr Example.summary)))]))
       "spec") = true.
Proof.
  assert (Hsim : Builder.sim
    (Builder.steps Example.engine None (Builder.init 7)
       [Builder.SubmitParse (Resolved (mkResponse 200 (inr Example.parsed_play)));
        Builder.ChangeOffense "kc";
        Builder.ClickSimulatePlay (Resolved (mkResponse 200 (inr Example.summary)))])
    <> None) by (simpl; discriminate).
  split; [exact Hsim |].
  exact (summaries_need_a_spec Example.engine None 7
           [Builder.SubmitParse (Resolved (mkResponse 200 (inr Example.parsed_play)));
            Builder.ChangeOffense "kc";
            Builder.ClickSimulatePlay (Resolved (mkResponse 200 (inr Example.summary)))]
           (or_introl Hsim)).
Defined.

(** ** Controls that are shown and do nothing *)

(** X11.  The controls of the simulations are rendered as soon as the
    parse result is truthy, while the handlers ask for a truthy [spec]
    in it: with a result that has no truthy [spec] and no operation
    running, both buttons are shown enabled, the normalized spec shows
    the text of that [spec], and clicking either button does nothing. *)
Theorem visible_controls_without_spec
  (env : option string) (s : Builder.State)
  (net_play : Request -> FetchResult SimSummary)
  (net_drive : Request -> FetchResult DriveSummary) :
  truthy (Builder.result s) = true ->
  truthy (opt_get (Builder.result s) "spec") = false ->
  Builder.loading s = false ->
  Builder.result_panel s =
  Shown (Builder.mkControls (JSON.stringify (get_field (Builder.result s) "spec"))
           (Builder.n s) (Builder.seed s)
           (mkButton false "Simulate Play") (mkButton false "Simulate Drive")) /\
  exec Builder.apply net_play (Builder.onSimulatePlay env s) s = mkRun s [] (inr tt) /\
  exec Builder.apply net_drive (Builder.onSimulateDrive env s) s = mkRun s [] (inr tt).
Proof.
  intros Hr Hg Hl.
  rewrite onSimulatePlay_run, onSimulateDrive_run, Hg.
  unfold Builder.result_panel, when_truthy. rewrite Hr, Hl. repeat split.
Qed.

Lemma visible_controls_without_spec_witness :
  truthy (Builder.result Example.specless) = true /\
  truthy (opt_get (Builder.result Example.specless) "spec") = false /\
  Builder.loading Example.specless = false /\
  exec Builder.apply (fun _ => Resolved (mkResponse 200 (inr Example.summary)))
       (Builder.onSimulatePlay None Example.specless) Example.specless
  = mkRun Example.specless [] (inr tt).
Proof.
  repeat (split; [reflexivity |]).
  exact (proj1 (proj2
    (visible_controls_without_spec None Example.specless
       (fun _ => Resolved (mkResponse 200 (inr Example.summary)))
       (fun _ => Rejected "offline") eq_refl eq_refl eq_refl))).
Defined.

(** ** Editing the inputs *)


(** ** The digits after the point *)

Lemma string_length_append (a b : string) :
  String.length (a ++ b) = String.length a + String.length b.
Proof. induction a as [| c a IH]; simpl; [reflexivity | rewrite IH; reflexivity]. Qed.

Lemma zeros_length (k : nat) : String.length (Fixed.zeros k) = k.
Proof. induction k as [| k IH]; simpl; [reflexivity | rewrite IH; reflexivity]. Qed.

Lemma substring_length (t : string) (i f : nat) :
  i + f <= String.length t -> String.length (substring i f t) = f.
Proof.
  revert i f. induction t as [| c t IH]; intros i f Hle; simpl in Hle.
  - assert (i = 0) by lia. assert (f = 0) by lia. subst. reflexivity.
  - destruct i as [| i]; destruct f as [| f]; simpl.
    + reflexivity.
    + rewrite IH by lia. reflexivity.
    + apply IH. lia.
    + apply IH. lia.
Qed.

Lemma substring_split (t : string) (i f : nat) :
  i + f = String.length t -> substring 0 i t ++ substring i f t = t.
Proof.
  revert i f. induction t as [| c t IH]; intros i f Hle; simpl in Hle.
  - assert (i = 0) by lia. assert (f = 0) by lia. subst. reflexivity.
  - destruct i as [| i]; simpl.
    + destruct f as [| f]; [discriminate |]. simpl.
      f_equal. injection Hle as Hle. specialize (IH 0 f Hle).
      simpl in IH. destruct f; simpl in *; destruct t; simpl in *; congruence.
    + rewrite IH by lia. reflexivity.
Qed.

(** [point] keeps every digit, puts at least one before the point and
    exactly [f] after it. *)
Lemma point_shape (k : Z) (f : nat) :
  0 < f ->
  exists a b,
    Fixed.point k f = a ++ "." ++ b /\
    String.length b = f /\ 1 <= String.length a /\
    a ++ b = Fixed.zeros (f + 1 - String.length (digits (Z.to_N k)))
             ++ digits (Z.to_N k).
Proof.
  intros Hf. unfold Fixed.point. destruct f as [| f']; [lia |].
  set (f := S f') in *. set (m := digits (Z.to_N k)).
  set (m' := if (String.length m <=? f)%nat
             then Fixed.zeros (f + 1 - String.length m) ++ m else m).
  assert (Hm' : m' = Fixed.zeros (f + 1 - String.length m) ++ m).
  { subst m'. destruct (Nat.leb_spec (String.length m) f) as [Hle | Hgt];
      [reflexivity |].
    replace (f + 1 - String.length m) with 0 by lia. reflexivity. }
  assert (Hlen : f + 1 <= String.length m').
  { rewrite Hm', string_length_append, zeros_length. lia. }
  exists (substring 0 (String.length m' - f) m'),
         (substring (String.length m' - f) f m').
  repeat split.
  - apply substring_length. lia.
  - rewrite substring_length by lia. lia.
  - rewrite substring_split by lia. exact Hm'.
Qed.

Lemma all_digits_append (a b : string) :
  Fixed.all_digits (a ++ b) = Fixed.all_digits a && Fixed.all_digits b.
Proof.
  induction a as [| c a IH]; simpl; [reflexivity |].
  rewrite IH, andb_assoc. reflexivity.
Qed.

Lemma all_digits_zeros (k : nat) : Fixed.all_digits (Fixed.zeros k) = true.
Proof. induction k as [| k IH]; simpl; [reflexivity | exact IH]. Qed.

Lemma all_digits_of_uint (u : Decimal.uint) :
  Fixed.all_digits (NilEmpty.string_of_uint u) = true.
Proof. induction u; simpl; auto. Qed.

(** The text of [point] is made of digits around its point. *)
Lemma point_digits (k : Z) (f : nat) :
  0 < f ->
  exists a b,
    Fixed.point k f = a ++ "." ++ b /\
    String.length b = f /\ 1 <= String.length a /\
    Fixed.all_digits a = true /\ Fixed.all_digits b = true.
Proof.
  intros Hf. destruct (point_shape k Hf) as (a & b & Hp & Hb & Ha & Hab).
  exists a, b. repeat split; try assumption.
  - assert (H : Fixed.all_digits (a ++ b) = true).
    { rewrite Hab, all_digits_append, all_digits_zeros.
      apply all_digits_of_uint. }
    rewrite all_digits_append in H. apply andb_prop in H. apply H.
  - assert (H : Fixed.all_digits (a ++ b) = true).
    { rewrite Hab, all_digits_append, all_digits_zeros.
      apply all_digits_of_uint. }
    rewrite all_digits_append in H. apply andb_prop in H. apply H.
Qed.

(** X13.  Every number the summary shows through [toFixed(f)] with
    [f > 0], when it is finite and below 10^21, reads: an optional minus
    sign, then at least one digit, a point and exactly [f] digits, all of
    them characters 0 to 9; so each rate card reads sign, digits, point,
    one digit, percent sign. *)
Theorem fixed_digits_after_point (P : Platform) :
  (forall x f, 0 < f -> Fixed.is_number x = true ->
     (1e21 <=? abs x)%float = false ->
     exists sg a b,
       Fixed.toFixed P x f = sg ++ a ++ "." ++ b /\
       (sg = "" \/ sg = "-") /\
       String.length b = f /\ 1 <= String.length a /\
       Fixed.all_digits a = true /\ Fixed.all_digits b = true) /\
  (forall rate, Fixed.is_number (rate * 100) = true ->
     (1e21 <=? abs (rate * 100))%float = false ->
     exists sg a b,
       Builder.percent P rate = (sg ++ a ++ "." ++ b) ++ "%" /\
       (sg = "" \/ sg = "-") /\
       String.length b = 1 /\ 1 <= String.length a /\
       Fixed.all_digits a = true /\ Fixed.all_digits b = true).
Proof.
  assert (H : forall x f, 0 < f -> Fixed.is_number x = true ->
     (1e21 <=? abs x)%float = false ->
     exists sg a b,
       Fixed.toFixed P x f = sg ++ a ++ "." ++ b /\
       (sg = "" \/ sg = "-") /\
       String.length b = f /\ 1 <= String.length a /\
       Fixed.all_digits a = true /\ Fixed.all_digits b = true).
  { intros x f Hf Hnum Hbig. unfold Fixed.toFixed, Fixed.is_number in *.
    destruct (Prim2SF x) as [sz | si | | sg m e]; try discriminate Hnum.
    - destruct (point_digits 0 Hf) as (a & b & Hp & Hb & Ha & Hda & Hdb).
      exists "", a, b. rewrite Hp. auto 10.
    - rewrite Hbig.
      destruct (point_digits (Fixed.nearest_scaled m e f) Hf)
        as (a & b & Hp & Hb & Ha & Hda & Hdb).
      exists (if sg then "-" else ""), a, b. rewrite Hp.
      destruct sg; auto 10. }
  split; [exact H |].
  intros rate Hnum Hbig. unfold Builder.percent.
  destruct (H (rate * 100)%float 1 ltac:(lia) Hnum Hbig)
    as (sg & a & b & Hp & Hs & Hb & Ha & Hda & Hdb).
  exists sg, a, b. rewrite Hp. auto 10.
Qed.

(** ** The two builder pages *)

(** X14.  The parse-only page parses as the builder page does: from the
    same text and codes both send the same URL, method, headers and
    body (the builder page adds [cache: "no-store"]), and on the same
    answer the parse-only page ends in the builder page's final state,
    as far as it has the fields. *)
Theorem builder_pages_agree_on_parse
  (P : Platform) (env : option string) (s : Builder.State) (o : FetchResult jsval) :
  let builder := exec Builder.apply (fun _ => o) (Builder.onParse P env s) s in
  let plain := exec ParsePage.apply (fun _ => o)
                    (ParsePage.onSubmit P env (parse_view s)) (parse_view s) in
  List.map (fun q => (url (fst q), method (fst q), headers (fst q), body (fst q)))
           (requests plain)
  = List.map (fun q => (url (fst q), method (fst q), headers (fst q), body (fst q)))
             (requests builder) /\
  List.map (fun q => cache (fst q)) (requests builder) = [Some "no-store"] /\
  List.map (fun q => cache (fst q)) (requests plain) = [None] /\
  final plain = parse_view (final builder) /\
  completion plain = completion builder.
Proof.
  cbv zeta. rewrite onParse_run, onSubmit_run. repeat split.
Qed.

(** ** While a request is outstanding *)

Lemma guarded_result_truthy (v : jsval) :
  truthy (opt_get v "spec") = true -> truthy v = true.
Proof. destruct v; simpl; intros H; try discriminate; reflexivity. Qed.

(** X15.  While the request of an operation is outstanding nothing else
    can be started from the page: the submit button is disabled and
    reads [Parsing...]; during a parse the controls of the simulations
    are not rendered at all, and during a simulation they are rendered
    with both buttons disabled and reading [Simulating...]. *)
Theorem busy_page_blocks_actions
  (P : Platform) (env : option string) (s : Builder.State) (s0 : ParsePage.State)
  (net : Request -> FetchResult jsval)
  (net_play : Request -> FetchResult SimSummary)
  (net_drive : Request -> FetchResult DriveSummary) :
  let busy_simulating (st : Builder.State) :=
    Builder.submit_button st = mkButton true "Parsing..." /\
    exists c, Builder.result_panel st = Shown c /\
              Builder.play_button c = mkButton true "Simulating..." /\
              Builder.drive_button c = mkButton true "Simulating..." in
  Forall (fun q => Builder.submit_button (snd q) = mkButton true "Parsing..." /\
                   Builder.result_panel (snd q) = Nothing)
         (requests (exec Builder.apply net (Builder.onParse P env s) s)) /\
  Forall (fun q => busy_simulating (snd q))
         (requests (exec Builder.apply net_play (Builder.onSimulatePlay env s) s)) /\
  Forall (fun q => busy_simulating (snd q))
         (requests (exec Builder.apply net_drive (Builder.onSimulateDrive env s) s)) /\
  Forall (fun q => ParsePage.submit_button (snd q) = mkButton true "Parsing..." /\
                   ParsePage.result_panel (snd q) = Nothing)
         (requests (exec ParsePage.apply net (ParsePage.onSubmit P env s0) s0)).
Proof.
  cbv zeta.
  rewrite onParse_run, onSimulatePlay_run, onSimulateDrive_run, onSubmit_run.
  split; [repeat constructor |].
  destruct (truthy (opt_get (Builder.result s) "spec")) eqn:Hg.
  - pose proof (guarded_result_truthy _ Hg) as Hr.
    split; [| split]; cbn [requests].
    + constructor; [| constructor]. cbn [snd]. split; [reflexivity |].
      unfold Builder.result_panel, Builder.play_pending, when_truthy.
      cbn [Builder.result Builder.loading]. rewrite Hr.
      eexists; repeat split.
    + constructor; [| constructor]. cbn [snd]. split; [reflexivity |].
      unfold Builder.result_panel, Builder.drive_pending, when_truthy.
      cbn [Builder.result Builder.loading]. rewrite Hr.
      eexists; repeat split.
    + repeat constructor.
  - split; [constructor | split; [constructor | repeat constructor]].
Qed.

(** ** The drive table *)

(** X16.  When a drive summary is stored the table has one row per play
    of the drive, in the order of the plays, and each row has the six
    cells down, distance, yard line, call, yards and result of its
    play. *)
Theorem drive_table_rows (P : Platform) (s : Builder.State) (d : DriveSummary) :
  Builder.drive s = Some d ->
  exists rows,
    Builder.drive_rows P s = Some rows /\
    List.length rows = List.length (plays d) /\
    (forall i p, nth_error (plays d) i = Some p ->
       nth_error rows i =
       Some [Number_toString P (down p); Number_toString P (distance p);
             Number_toString P (yardline_100 p); call_type p;
             Number_toString P (yards p);
             Builder.result_tag (play_result p)]) /\
    Forall (fun row => List.length row = 6) rows.
Proof.
  intros Hd. unfold Builder.drive_rows. rewrite Hd.
  exists (List.map (Builder.play_row P) (plays d)). repeat split.
  - apply List.length_map.
  - intros i p Hp. rewrite List.nth_error_map, Hp. reflexivity.
  - apply Forall_forall. intros row Hin. apply in_map_iff in Hin.
    destruct Hin as (p & <- & _). reflexivity.
Qed.

Lemma drive_table_rows_witness :
  Builder.drive
    (Builder.step Example.engine None Example.simulated
       (Builder.ClickSimulateDrive
          (Resolved (mkResponse 200 (inr Example.touchdown_drive)))))
  = Some Example.touchdown_drive /\
  Builder.drive_rows Example.engine
    (Builder.step Example.engine None Example.simulated
       (Builder.ClickSimulateDrive
          (Resolved (mkResponse 200 (inr Example.touchdown_drive)))))
  = Some [["1"; "10"; "42"; "PASS"; "12"; "FIRST_DOWN"];
          ["1"; "10"; "30"; "PASS"; "30"; "TOUCHDOWN"]].
Proof.
  split; [reflexivity |].
  destruct (drive_table_rows Example.engine
              (Builder.step Example.engine None Example.simulated
                 (Builder.ClickSimulateDrive
                    (Resolved (mkResponse 200 (inr Example.touchdown_drive)))))
              eq_refl) as (rows & Hrows & _).
  reflexivity.
Defined.

(** ** The sample count and seed inputs *)

(** X17.  With a parse result whose [spec] is truthy stored: after the
    seed input is cleared, the requests of both simulations carry the
    members [spec] and [n] only; after a value is entered in it, their
    [seed] property is the number that value converts to; and after a
    value is entered in the sample count input, the single-play request
    carries its conversion as [n] while the drive request still carries
    1. *)
Theorem inputs_reach_the_requests
  (P : Platform) (env : option string) (s : Builder.State) (v : string) :
  truthy (opt_get (Builder.result s) "spec") = true ->
  let spec := get_field (Builder.result s) "spec" in
  let cleared := Builder.step P env s (Builder.ChangeSeed "") in
  let seeded := Builder.step P env s (Builder.ChangeSeed v) in
  let counted := Builder.step P env s (Builder.ChangeN v) in
  (JSON.member_names (body (Builder.simulate_request env cleared)) = ["spec"; "n"] /\
   JSON.member_names (body (Builder.drive_request env cleared)) = ["spec"; "n"]) /\
  (v <> "" ->
   body (Builder.simulate_request env seeded) =
   JSON.stringify (JObj [("spec", spec); ("n", JNum (Builder.n s));
                         ("seed", JNum (StringToNumber P v))]) /\
   body (Builder.drive_request env seeded) =
   JSON.stringify (JObj [("spec", spec); ("n", JNum 1);
                         ("seed", JNum (StringToNumber P v))])) /\
  (body (Builder.simulate_request env counted) =
   JSON.stringify (JObj [("spec", spec); ("n", JNum (StringToNumber P v));
                         ("seed", Builder.seed_property s)]) /\
   body (Builder.drive_request env counted) =
   JSON.stringify (JObj [("spec", spec); ("n", JNum 1);
                         ("seed", Builder.seed_property s)])).
Proof.
  intros Hg. cbv zeta.
  assert (Hs : truthy (get_field (Builder.result s) "spec") = true)
    by (rewrite <- guarded_spec; assumption).
  destruct (serialize_defined _ Hs) as [t Ht].
  split; [| split].
  - unfold Builder.simulate_request, Builder.drive_request,
      Builder.simulate_payload, Builder.drive_payload, Builder.seed_property.
    cbn [body Builder.step Builder.apply Builder.onChangeSeed Builder.result
         Builder.seed Builder.n String.eqb].
    rewrite !(stringify_simulation_payload _ _ _ Ht). split; reflexivity.
  - intros Hv.
    unfold Builder.simulate_request, Builder.drive_request,
      Builder.simulate_payload, Builder.drive_payload, Builder.seed_property.
    cbn [body Builder.step Builder.apply Builder.onChangeSeed Builder.result
         Builder.seed Builder.n].
    destruct (String.eqb_spec v "") as [E | E]; [contradiction |].
    split; reflexivity.
  - split; reflexivity.
Qed.

Lemma inputs_reach_the_requests_witness :
  truthy (opt_get (Builder.result Example.simulated) "spec") = true /\
  JSON.member_names
    (body (Builder.simulate_request None
             (Builder.step Example.engine None Example.simulated (Builder.ChangeSeed ""))))
  = ["spec"; "n"].
Proof.
  split; [reflexivity |].
  exact (proj1 (proj1
    (inputs_reach_the_requests Example.engine None Example.simulated "77" eq_refl))).
Defined.
